(** * auth-microservice: credential and token lifecycle

A shallow embedding of the authentication core (domain entity, ports,
CQRS handlers, infrastructure adapters, NATS controller) together with
the properties its specification states about it.

Conventions.
- A JS string is a [string] whose characters are code units in the
  range 0..255.
- A JS object whose key set matters (token payloads, decoded tokens,
  response bodies) is a [gmap string JsValue]; reading a missing
  property yields [JsUndefined], as in JS.
- An [async] method is a computation [M W E A]: it runs in a world [W]
  (database, clock, entropy), may change it, and either returns an [A]
  or throws an [E].  [await] is bind, [try]/[catch] is [try_catch].
- Logger and console calls have no influence on results and are left
  out. *)

From stdpp Require Import base option list gmap strings.
From Stdlib Require Import ZArith Ascii String DecimalString.

Local Open Scope Z_scope.
Local Open Scope string_scope.

(** ** JavaScript values and objects *)

Inductive JsValue : Type :=
| JsUndefined
| JsNull
| JsBool (b : bool)
| JsNumber (n : Z)
| JsString (s : string)
| JsFunction (name : string).

#[global] Instance JsValue_eq_dec : EqDecision JsValue.
Proof. solve_decision. Defined.

#[global] Instance JsValue_inhabited : Inhabited JsValue := populate JsUndefined.

Abbreviation JsObject := (gmap string JsValue).

(** [o.k] for an object [o]: [undefined] when the property is missing. *)
Definition prop (o : JsObject) (k : string) : JsValue := o !!! k.

(** What [JSON.stringify] keeps of an object: the properties whose value
    is neither [undefined] nor a function. *)
Definition jsonable (v : JsValue) : bool :=
  match v with
  | JsUndefined | JsFunction _ => false
  | _ => true
  end.

Definition jsonView (o : JsObject) : JsObject :=
  filter (fun kv => jsonable (snd kv) = true) o.

(** ** Thrown values *)

(** A plain [Error] (or a library error): Prisma errors carry a [code],
    and [message] may be missing, which is why the source guards it with
    the nullish operator. *)
Record JsError : Type := mkJsError {
  err_code : option string;
  err_message : option string
}.

(** [new Error(msg)] *)
Definition Error (msg : string) : JsError :=
  {| err_code := None; err_message := Some msg |}.

(** The argument of [new RpcException(...)]: the handlers and adapters pass
    an object [{status, message}], the controller's fallback passes a
    string. *)
Inductive RpcError : Type :=
| RpcObj (status : Z) (message : string)
| RpcStr (message : string).

Inductive Exn : Type :=
| RpcException (e : RpcError)
| Thrown (e : JsError).

#[global] Instance JsError_eq_dec : EqDecision JsError.
Proof. solve_decision. Defined.
#[global] Instance RpcError_eq_dec : EqDecision RpcError.
Proof. solve_decision. Defined.
#[global] Instance Exn_eq_dec : EqDecision Exn.
Proof. solve_decision. Defined.

(** [x ?? d] *)
Definition nullish {A : Type} (x : option A) (d : A) : A :=
  match x with Some a => a | None => d end.

(** [!s] for a string: only the empty string is falsy. *)
Definition falsy (s : string) : bool :=
  match s with EmptyString => true | _ => false end.

(** [s || d] for strings *)
Definition orElse (s d : string) : string := if falsy s then d else s.

(** ** Computations: state and exceptions *)

Definition M (W E A : Type) : Type := W -> (E + A) * W.

Definition ret {W E A} (a : A) : M W E A := fun w => (inr a, w).

Definition throw {W E A} (e : E) : M W E A := fun w => (inl e, w).

Definition bind {W E A B} (m : M W E A) (k : A -> M W E B) : M W E B :=
  fun w =>
    match m w with
    | (inr a, w') => k a w'
    | (inl e, w') => (inl e, w')
    end.

Definition try_catch {W E E' A} (body : M W E A) (handler : E -> M W E' A)
  : M W E' A :=
  fun w =>
    match body w with
    | (inr a, w') => (inr a, w')
    | (inl e, w') => handler e w'
    end.

(** A library call inside application code: what the library throws is a
    plain error, never an [RpcException]. *)
Definition lib {W A} (m : M W JsError A) : M W Exn A :=
  fun w =>
    match m w with
    | (inr a, w') => (inr a, w')
    | (inl e, w') => (inl (Thrown e), w')
    end.

Notation "'await' x '<-' m 'in' k" := (bind m (fun x => k))
  (at level 10, x name, m at level 200, k at level 200,
   format "'[v' 'await'  x  '<-'  m  'in' '/' k ']'").

(** The outcome of running a computation, without the final world. *)
Definition outcome {W E A} (m : M W E A) (w : W) : E + A := fst (m w).
Definition world_after {W E A} (m : M W E A) (w : W) : W := snd (m w).

(** ** Domain: the User entity (user.entity.ts) *)

Module User.

Record t : Type := mk {
    id : string;
    email : string;
    name : string;
    password : option string;   (* [password?: string] *)
    isActive : bool
  }.

(** [constructor(id, email, name, password?, isActive = true)] *)
Definition new (id email name : string) (password : option string)
    (isActive : option bool) : t :=
  {| id := id; email := email; name := name; password := password;
     isActive := match isActive with Some b => b | None => true end |}.

Definition set_name (u : t) (n : string) : t :=
  {| id := id u; email := email u; name := n; password := password u;
     isActive := isActive u |}.

(** ECMAScript WhiteSpace and LineTerminator code points below 256:
    TAB, LF, VT, FF, CR, SPACE and NO-BREAK SPACE. *)
Definition isWhiteSpace (c : ascii) : bool :=
  let n := nat_of_ascii c in
  ((9 <=? n)%nat && (n <=? 13)%nat) || (n =? 32)%nat || (n =? 160)%nat.

Fixpoint trimStart (s : string) : string :=
  match s with
  | EmptyString => EmptyString
  | String c s' => if isWhiteSpace c then trimStart s' else s
  end.

Fixpoint trimEnd (s : string) : string :=
  match s with
  | EmptyString => EmptyString
  | String c s' =>
      match trimEnd s' with
      | EmptyString => if isWhiteSpace c then EmptyString
                       else String c EmptyString
      | r => String c r
      end
  end.

(** [String.prototype.trim] *)
Definition trim (s : string) : string := trimEnd (trimStart s).


(** [updateName(newName)]: a method of the mutable entity, hence a
    computation whose world is the entity itself. *)
Definition updateName (newName : string) : M t JsError unit :=
  fun this =>
    if falsy newName || (String.length (trim newName) =? 0)%nat then
      throw (Error "User name cannot be empty.") this
    else
      (inr tt, set_name this (trim newName)).

End User.

(** ** Domain ports (hasher.port.ts, token.port.ts, user.repository.port.ts) *)

Module HasherPort.
Record t (W : Type) : Type := mk {
    hash : string -> M W Exn string;
    compare : string -> string -> M W Exn bool
  }.
Arguments mk {W}.
Arguments hash {W}.
Arguments compare {W}.
End HasherPort.

Module TokenPort.
(** [JwtPayload] is the TS type [{id, email, name}]; at run time it is
    whatever object the caller passes or the adapter builds. *)
Record t (W : Type) : Type := mk {
    generateToken : JsObject -> M W Exn string;
    verifyToken : string -> M W Exn JsObject
  }.
Arguments mk {W}.
Arguments generateToken {W}.
Arguments verifyToken {W}.
End TokenPort.

Module UserRepositoryPort.
Record t (W : Type) : Type := mk {
    findById : string -> M W Exn (option User.t);
    findByEmail : string -> M W Exn (option User.t);
    save : User.t -> M W Exn User.t;
    delete : string -> M W Exn unit
  }.
Arguments mk {W}.
Arguments findById {W}.
Arguments findByEmail {W}.
Arguments save {W}.
Arguments delete {W}.
End UserRepositoryPort.

(** ** Application: DTOs, commands and queries *)

Module RegisterUserDto.
Record t : Type := mk { name : string; email : string; password : string }.
End RegisterUserDto.

Module LoginUserDto.
Record t : Type := mk { email : string; password : string }.
End LoginUserDto.

Module AuthResponseDto.
(** [user] is typed [Omit<User, 'password'>]; the value is the object
    literal the handler builds. *)
Record t : Type := mk { user : JsObject; token : string }.
End AuthResponseDto.

Module VerifyTokenResponseDto.
Record t : Type := mk { user : JsObject; token : string }.
End VerifyTokenResponseDto.

Module RegisterUserCommand.
Record t : Type := mk { registerUserDto : RegisterUserDto.t }.
End RegisterUserCommand.

Module LoginUserCommand.
Record t : Type := mk { loginUserDto : LoginUserDto.t }.
End LoginUserCommand.

Module VerifyTokenQuery.
Record t : Type := mk { token : string }.
End VerifyTokenQuery.

(** An object literal [{k1: v1, ..., kn: vn}] with distinct keys. *)
Definition object (fields : list (string * JsValue)) : JsObject :=
  list_to_map fields.

(** [const { password: _, ...userPayload } = user]: the own properties of
    the entity except [password].  [updateName] lives on the prototype and
    is not copied. *)
Definition rest_without_password (user : User.t) : JsObject :=
  object [ ("id", JsString (User.id user));
           ("email", JsString (User.email user));
           ("name", JsString (User.name user));
           ("isActive", JsBool (User.isActive user)) ].

(** [user.updateName]: a reference to the method, not a call. *)
Definition updateName_ref (user : User.t) : JsValue := JsFunction "updateName".

(** ** Application: the handlers *)

Module LoginUserHandler.
Section Handler.
Context {W : Type}.
Variable userRepository : UserRepositoryPort.t W.
Variable hasher : HasherPort.t W.
Variable tokenService : TokenPort.t W.

Definition execute (command : LoginUserCommand.t) : M W Exn AuthResponseDto.t :=
  let email := LoginUserDto.email (LoginUserCommand.loginUserDto command) in
  let password := LoginUserDto.password (LoginUserCommand.loginUserDto command) in
  try_catch
    (await user <- UserRepositoryPort.findByEmail userRepository email in
     match user with
     | None => throw (RpcException (RpcObj 400 "User/Password not valid"))
     | Some user =>
         match User.password user with
         | None => throw (RpcException (RpcObj 400 "User/Password not valid"))
         | Some stored =>
             if falsy stored then
               throw (RpcException (RpcObj 400 "User/Password not valid"))
             else
               await isPasswordValid <- HasherPort.compare hasher password stored in
               if negb isPasswordValid then
                 throw (RpcException (RpcObj 400 "User/Password not valid"))
               else
                 let userPayload := rest_without_password user in
                 await token <- TokenPort.generateToken tokenService
                                  (object [ ("id", prop userPayload "id");
                                            ("email", prop userPayload "email");
                                            ("name", prop userPayload "name") ]) in
                 ret (AuthResponseDto.mk
                        (object [ ("id", prop userPayload "id");
                                  ("email", prop userPayload "email");
                                  ("name", prop userPayload "name");
                                  ("isActive", prop userPayload "isActive");
                                  ("updateName", updateName_ref user) ])
                        token)
         end
     end)
    (fun error =>
       match error with
       | RpcException _ => throw error
       | Thrown e =>
           throw (RpcException (RpcObj 500
             (nullish (err_message e)
                      "An unexpected error occurred during login.")))
       end).
End Handler.
End LoginUserHandler.

Module RegisterUserHandler.
Section Handler.
Context {W : Type}.
Variable userRepository : UserRepositoryPort.t W.
Variable hasher : HasherPort.t W.
Variable tokenService : TokenPort.t W.
(** [randomUUID] of Node's [crypto] module. *)
Variable randomUUID : M W JsError string.

Definition execute (command : RegisterUserCommand.t) : M W Exn AuthResponseDto.t :=
  let email := RegisterUserDto.email (RegisterUserCommand.registerUserDto command) in
  let name := RegisterUserDto.name (RegisterUserCommand.registerUserDto command) in
  let password := RegisterUserDto.password (RegisterUserCommand.registerUserDto command) in
  try_catch
    (await existingUser <- UserRepositoryPort.findByEmail userRepository email in
     match existingUser with
     | Some _ => throw (RpcException (RpcObj 400 "User already exists"))
     | None =>
         await hashedPassword <- HasherPort.hash hasher password in
         await id <- lib randomUUID in
         let userToSave := User.new id email name (Some hashedPassword) None in
         await savedUser <- UserRepositoryPort.save userRepository userToSave in
         let userPayload := rest_without_password savedUser in
         await token <- TokenPort.generateToken tokenService
                          (object [ ("id", prop userPayload "id");
                                    ("email", prop userPayload "email");
                                    ("name", prop userPayload "name") ]) in
         ret (AuthResponseDto.mk
                (object [ ("id", prop userPayload "id");
                          ("email", prop userPayload "email");
                          ("name", prop userPayload "name");
                          ("isActive", prop userPayload "isActive");
                          ("updateName", updateName_ref savedUser) ])
                token)
     end)
    (fun error =>
       match error with
       | RpcException _ => throw error
       | Thrown e =>
           throw (RpcException (RpcObj 500
             (nullish (err_message e)
                      "An unexpected error occurred during registration.")))
       end).
End Handler.
End RegisterUserHandler.

Module VerifyTokenHandler.
Section Handler.
Context {W : Type}.
Variable tokenService : TokenPort.t W.

Definition execute (query : VerifyTokenQuery.t) : M W Exn VerifyTokenResponseDto.t :=
  let token := VerifyTokenQuery.token query in
  try_catch
    (await userPayload <- TokenPort.verifyToken tokenService token in
     await newToken <- TokenPort.generateToken tokenService userPayload in
     ret (VerifyTokenResponseDto.mk userPayload newToken))
    (fun _ => throw (RpcException (RpcObj 401 "Invalid token"))).
End Handler.
End VerifyTokenHandler.

(** ** Configuration (config/envs.ts) *)

Module Envs.
Record t : Type := mk {
    port : Z;
    natsServers : list string;
    jwtSecret : string;
    jwtExpiresIn : string
  }.
End Envs.

(** ** Third-party libraries, as the adapters use them *)

Module PrismaUser.
(** A row of the [user] table. *)
Record t : Type := mk {
    id : string;
    email : string;
    name : string;
    password : string;
    isActive : bool
  }.
End PrismaUser.

Module PrismaClient.
Inductive UserWhereUniqueInput : Type :=
  | WhereId (id : string)
  | WhereEmail (email : string).

(** [prisma.user.findUnique], [prisma.user.create], [prisma.user.delete] *)
Record t (W : Type) : Type := mk {
    user_findUnique : UserWhereUniqueInput -> M W JsError (option PrismaUser.t);
    user_create : PrismaUser.t -> M W JsError PrismaUser.t;
    user_delete : UserWhereUniqueInput -> M W JsError PrismaUser.t
  }.
Arguments mk {W}.
Arguments user_findUnique {W}.
Arguments user_create {W}.
Arguments user_delete {W}.
End PrismaClient.

Module Bcrypt.
(** [bcrypt.hash(data, rounds)], [bcrypt.compare(data, encrypted)] *)
Record t (W : Type) : Type := mk {
    hash : string -> Z -> M W JsError string;
    compare : string -> string -> M W JsError bool
  }.
Arguments mk {W}.
Arguments hash {W}.
Arguments compare {W}.
End Bcrypt.

Module JwtService.
(** [jwtService.sign(payload)], [jwtService.verify(token, {secret})] *)
Record t (W : Type) : Type := mk {
    sign : JsObject -> M W JsError string;
    verify : string -> string -> M W JsError JsObject
  }.
Arguments mk {W}.
Arguments sign {W}.
Arguments verify {W}.
End JwtService.

(** ** Infrastructure: the adapters *)

Module JwtTokenAdapter.
Section Adapter.
Context {W : Type}.
Variable jwtService : JwtService.t W.
Variable envs : Envs.t.

Definition generateToken (payload : JsObject) : M W Exn string :=
  lib (JwtService.sign jwtService payload).

Definition verifyToken (token : string) : M W Exn JsObject :=
  try_catch
    (await decoded <- JwtService.verify jwtService token (Envs.jwtSecret envs) in
     ret (object [ ("id", prop decoded "id");
                   ("email", prop decoded "email");
                   ("name", prop decoded "name") ]))
    (fun error =>
       throw (RpcException (RpcObj 401
         (nullish (err_message error) "Invalid token.")))).

Definition port : TokenPort.t W :=
  TokenPort.mk generateToken verifyToken.
End Adapter.
End JwtTokenAdapter.

Module PrismaUserRepository.
Section Adapter.
Context {W : Type}.
Variable prisma : PrismaClient.t W.

(** [new User(prismaUser.id, ..., prismaUser.isActive)] *)
Definition entityOf (row : PrismaUser.t) : User.t :=
  User.new (PrismaUser.id row) (PrismaUser.email row) (PrismaUser.name row)
    (Some (PrismaUser.password row)) (Some (PrismaUser.isActive row)).

Definition mapToDomain (prismaUser : option PrismaUser.t) : option User.t :=
  match prismaUser with
  | None => None
  | Some row => Some (entityOf row)
  end.

Definition mapToPrismaCreateData (user : User.t) : PrismaUser.t :=
  {| PrismaUser.id := User.id user;
     PrismaUser.email := User.email user;
     PrismaUser.name := User.name user;
     PrismaUser.password := nullish (User.password user) "";
     PrismaUser.isActive := User.isActive user |}.

Definition findById (id : string) : M W Exn (option User.t) :=
  try_catch
    (await prismaUser <- PrismaClient.user_findUnique prisma (PrismaClient.WhereId id) in
     ret (mapToDomain prismaUser))
    (fun _ => throw (RpcException (RpcObj 500 "Database error finding user by ID."))).

Definition findByEmail (email : string) : M W Exn (option User.t) :=
  try_catch
    (await prismaUser <- PrismaClient.user_findUnique prisma (PrismaClient.WhereEmail email) in
     ret (mapToDomain prismaUser))
    (fun _ => throw (RpcException (RpcObj 500 "Database error finding user by email."))).

(** [create] resolves to the created row, never to [null], so
    [mapToDomain] takes its second branch here. *)
Definition save (user : User.t) : M W Exn User.t :=
  let prismaData := mapToPrismaCreateData user in
  try_catch
    (await savedPrismaUser <- PrismaClient.user_create prisma prismaData in
     ret (entityOf savedPrismaUser))
    (fun error =>
       if decide (err_code error = Some "P2002") then
         throw (RpcException (RpcObj 409
           ("User with email " +:+ User.email user +:+ " already exists.")))
       else
         throw (RpcException (RpcObj 500 "Database error saving user."))).

Definition delete (id : string) : M W Exn unit :=
  try_catch
    (await _deleted <- PrismaClient.user_delete prisma (PrismaClient.WhereId id) in
     ret tt)
    (fun error =>
       if decide (err_code error = Some "P2025") then
         throw (RpcException (RpcObj 404
           ("User with ID " +:+ id +:+ " not found.")))
       else
         throw (RpcException (RpcObj 500 "Database error deleting user."))).

Definition port : UserRepositoryPort.t W :=
  UserRepositoryPort.mk findById findByEmail save delete.
End Adapter.
End PrismaUserRepository.

Module BcryptAdapter.
Section Adapter.
Context {W : Type}.
Variable bcrypt : Bcrypt.t W.

Definition saltRounds : Z := 10.

Definition hash (plainText : string) : M W Exn string :=
  lib (Bcrypt.hash bcrypt plainText saltRounds).

Definition compare (plainText hashed : string) : M W Exn bool :=
  lib (Bcrypt.compare bcrypt plainText hashed).

Definition port : HasherPort.t W := HasherPort.mk hash compare.
End Adapter.
End BcryptAdapter.

(** ** Infrastructure: the NATS controller (auth.controller.ts)

    The command and query buses dispatch to the single handler of the
    command or query class. *)

Module AuthController.
Section Controller.
Context {W : Type}.
Variable userRepository : UserRepositoryPort.t W.
Variable hasher : HasherPort.t W.
Variable tokenService : TokenPort.t W.
Variable randomUUID : M W JsError string.

Definition rethrow {A} (fallback : string) (error : Exn) : M W Exn A :=
  throw (match error with
         | RpcException _ => error
         | Thrown e => RpcException (RpcStr (nullish (err_message e) fallback))
         end).

Definition registerUser (registerUserDto : RegisterUserDto.t)
  : M W Exn AuthResponseDto.t :=
  try_catch
    (RegisterUserHandler.execute userRepository hasher tokenService randomUUID
       (RegisterUserCommand.mk registerUserDto))
    (rethrow "Registration failed").

Definition loginUser (loginUserDto : LoginUserDto.t)
  : M W Exn AuthResponseDto.t :=
  try_catch
    (LoginUserHandler.execute userRepository hasher tokenService
       (LoginUserCommand.mk loginUserDto))
    (rethrow "Login failed").

Definition verifyToken (token : string) : M W Exn VerifyTokenResponseDto.t :=
  try_catch
    (VerifyTokenHandler.execute tokenService (VerifyTokenQuery.mk token))
    (rethrow "Token verification failed").
End Controller.
End AuthController.

(** ** The global exception filter *)

Module AllExceptionsFilter.
Record ErrorEnvelope : Type := mk {
    status : Z;
    message : string;
    timestamp : string
  }.

(** Modelled from the spec: the global exception filter
    (shared/infrastructure/filters) that [main.ts] installs is not among
    the sources.  The specification and the README give its contract:
    every exception, [RpcException] or plain error, is turned into the
    triple [{status, message, timestamp}]; an exception that carries a
    status keeps it and its message, any other is an internal error,
    status 500. *)
Definition catch (exception : Exn) (now : string) : ErrorEnvelope :=
  match exception with
  | RpcException (RpcObj status message) =>
      {| status := status; message := message; timestamp := now |}
  | RpcException (RpcStr message) =>
      {| status := 500; message := message; timestamp := now |}
  | Thrown e =>
      {| status := 500;
         message := nullish (err_message e) "Internal server error";
         timestamp := now |}
  end.
End AllExceptionsFilter.

(** ** The wired application (auth.module.ts, main.ts) *)

Module AuthModule.
Record JwtModuleOptions : Type := mkOptions {
  secret : string;
  signOptions_expiresIn : string
}.

(** [JwtModule.register({ secret: envs.jwtSecret,
                          signOptions: { expiresIn: envs.jwtExpiresIn || '2h' } })] *)
Definition jwtModuleOptions (envs : Envs.t) : JwtModuleOptions :=
  {| secret := Envs.jwtSecret envs;
     signOptions_expiresIn := orElse (Envs.jwtExpiresIn envs) "2h" |}.
End AuthModule.

Module App.
Section Wiring.
Context {W : Type}.
Variable prisma : PrismaClient.t W.
Variable bcrypt : Bcrypt.t W.
Variable jwtService : JwtService.t W.
Variable randomUUID : M W JsError string.
Variable envs : Envs.t.
(** [new Date().toISOString()] *)
Variable isoNow : W -> string.

Definition userRepository := PrismaUserRepository.port prisma.
Definition hasher := BcryptAdapter.port bcrypt.
Definition tokenService := JwtTokenAdapter.port jwtService envs.

(** [app.useGlobalFilters(new AllExceptionsFilter())] *)
Definition filtered {A} (endpoint : M W Exn A)
  : M W AllExceptionsFilter.ErrorEnvelope A :=
  try_catch endpoint
    (fun exception w => (inl (AllExceptionsFilter.catch exception (isoNow w)), w)).

Definition register (dto : RegisterUserDto.t) :=
  filtered (AuthController.registerUser userRepository hasher tokenService
              randomUUID dto).

Definition login (dto : LoginUserDto.t) :=
  filtered (AuthController.loginUser userRepository hasher tokenService dto).

Definition verify (token : string) :=
  filtered (AuthController.verifyToken tokenService token).
End Wiring.
End App.

(** ** Recording the calls a handler makes to its collaborators *)

Module Spy.

Inductive Call : Type :=
| FindById (id : string)
| FindByEmail (email : string)
| Save (user : User.t)
| Delete (id : string)
| Hash (plainText : string)
| Compare (plainText hashed : string)
| GenerateToken (payload : JsObject)
| VerifyToken (token : string)
| RandomUUID.

#[global] Instance User_eq_dec : EqDecision User.t.
Proof. solve_decision. Defined.
#[global] Instance Call_eq_dec : EqDecision Call.
Proof. solve_decision. Defined.

Section Spied.
Context {W : Type}.

(** Runs [m] and appends [c] to the journal kept beside the world. *)
Definition spied {E A} (c : Call) (m : M W E A) : M (W * list Call) E A :=
  fun wl =>
    match m (fst wl) with
    | (r, w') => (r, (w', (snd wl ++ [c])%list))
    end.

Definition userRepository (r : UserRepositoryPort.t W)
  : UserRepositoryPort.t (W * list Call) :=
  {| UserRepositoryPort.findById := fun id =>
       spied (FindById id) (UserRepositoryPort.findById r id);
     UserRepositoryPort.findByEmail := fun email =>
       spied (FindByEmail email) (UserRepositoryPort.findByEmail r email);
     UserRepositoryPort.save := fun user =>
       spied (Save user) (UserRepositoryPort.save r user);
     UserRepositoryPort.delete := fun id =>
       spied (Delete id) (UserRepositoryPort.delete r id) |}.

Definition hasher (h : HasherPort.t W) : HasherPort.t (W * list Call) :=
  {| HasherPort.hash := fun plainText =>
       spied (Hash plainText) (HasherPort.hash h plainText);
     HasherPort.compare := fun plainText hashed =>
       spied (Compare plainText hashed) (HasherPort.compare h plainText hashed) |}.

Definition tokenService (t : TokenPort.t W) : TokenPort.t (W * list Call) :=
  {| TokenPort.generateToken := fun payload =>
       spied (GenerateToken payload) (TokenPort.generateToken t payload);
     TokenPort.verifyToken := fun token =>
       spied (VerifyToken token) (TokenPort.verifyToken t token) |}.

Definition randomUUID (u : M W JsError string) : M (W * list Call) JsError string :=
  spied RandomUUID u.
End Spied.

End Spy.

(** ** Vocabulary of the specification *)

Module Spec.

(** The sanitized user view: the entity without its password hash, as a
    function of the four remaining fields only. *)
Definition sanitizedUser (id email name : string) (isActive : bool) : JsObject :=
  object [ ("id", JsString id); ("email", JsString email);
           ("name", JsString name); ("isActive", JsBool isActive) ].

(** What the handlers put in the response: the sanitized view plus the
    reference to the entity's [updateName] method. *)
Definition responseUser (user : User.t) : JsObject :=
  <["updateName" := JsFunction "updateName"]>
    (sanitizedUser (User.id user) (User.email user) (User.name user)
       (User.isActive user)).

(** The identity payload of a token. *)
Definition identity (id email name : JsValue) : JsObject :=
  object [ ("id", id); ("email", email); ("name", name) ].

Definition identityOf (user : User.t) : JsObject :=
  identity (JsString (User.id user)) (JsString (User.email user))
    (JsString (User.name user)).

Definition identityKeys : gset string := {[ "id"; "email"; "name" ]}.


(** The status codes of the error envelope. *)
Definition statusCodes : list Z := [400; 401; 404; 409; 500].




Section Login.
Context {W : Type}.
Variable userRepository : UserRepositoryPort.t W.
Variable hasher : HasherPort.t W.



End Login.


(** An exception that carries a status of the envelope and a message. *)
Definition enveloped (exception : Exn) : Prop :=
  exists status message,
    exception = RpcException (RpcObj status message) /\ In status statusCodes.




(** What a handler's [catch] block throws for an exception of its [try]
    block: an [RpcException] as it is, anything else as status 500 with the
    error's message, or [fallback] when it has none. *)
Definition rethrown (fallback : string) (exception : Exn) : Exn :=
  match exception with
  | RpcException _ => exception
  | Thrown e => RpcException (RpcObj 500 (nullish (err_message e) fallback))
  end.

Definition registrationFallback : string :=
  "An unexpected error occurred during registration.".

Definition loginFallback : string :=
  "An unexpected error occurred during login.".

(** The calls of a login, in order: the lookup, then the comparison, then
    the mint. *)
Definition loginCalls (email password : string) (calls : list Spy.Call) : Prop :=
  calls = [Spy.FindByEmail email]
  \/ (exists stored,
        calls = [Spy.FindByEmail email; Spy.Compare password stored])
  \/ (exists stored payload,
        calls = [Spy.FindByEmail email; Spy.Compare password stored;
                 Spy.GenerateToken payload]).

End Spec.

(** ** A reference world

    In-memory stand-ins for the database, the clock and the libraries.
    The properties of the handlers and adapters below are stated for every
    implementation of the libraries; the reference world instantiates them
    in closed examples. *)

Module Ref.

Record World : Type := mkWorld {
    db : list PrismaUser.t;     (* the [user] table, in insertion order *)
    clock : Z;                  (* [Date.now()], milliseconds *)
    entropy : nat               (* the state of the random source *)
  }.

Definition set_db (rows : list PrismaUser.t) (w : World) : World :=
  {| db := rows; clock := clock w; entropy := entropy w |}.

Definition draw (w : World) : World :=
  {| db := db w; clock := clock w; entropy := S (entropy w) |}.

(** Time passing between two requests. *)
Definition elapse (ms : Z) (w : World) : World :=
  {| db := db w; clock := clock w + ms; entropy := entropy w |}.

Definition digits (n : nat) : string := NilZero.string_of_uint (Nat.to_uint n).

(** The timestamp text: the clock reading, in decimal. *)
Definition isoNow (w : World) : string :=
  NilZero.string_of_int (Z.to_int (clock w)).

Definition randomUUID : M World JsError string :=
  fun w => (inr ("uuid-" +:+ digits (entropy w)), draw w).

(** *** The database: unique [id], unique [email] *)

Definition matches (where_ : PrismaClient.UserWhereUniqueInput)
    (row : PrismaUser.t) : bool :=
  match where_ with
  | PrismaClient.WhereId id => bool_decide (PrismaUser.id row = id)
  | PrismaClient.WhereEmail email => bool_decide (PrismaUser.email row = email)
  end.

Definition prisma : PrismaClient.t World :=
  {| PrismaClient.user_findUnique := fun where_ w =>
       (inr (List.find (matches where_) (db w)), w);
     PrismaClient.user_create := fun data w =>
       if existsb (fun row =>
            matches (PrismaClient.WhereId (PrismaUser.id data)) row
            || matches (PrismaClient.WhereEmail (PrismaUser.email data)) row)
            (db w)
       then (inl {| err_code := Some "P2002";
                    err_message := Some "Unique constraint failed" |}, w)
       else (inr data, set_db (db w ++ [data]) w);
     PrismaClient.user_delete := fun where_ w =>
       match List.find (matches where_) (db w) with
       | Some row =>
           (inr row, set_db (List.filter (fun r => negb (matches where_ r)) (db w)) w)
       | None =>
           (inl {| err_code := Some "P2025";
                   err_message := Some "Record to delete does not exist." |}, w)
       end |}.

(** *** Tokens: claims, issue time and expiry *)

Section Jwt.
(** [encode secret claims] is the signed token, [decode secret token]
    the claims of a well-formed token signed with [secret];
    [timespan] reads a duration such as [2h] as seconds. *)
Variable encode : string -> JsObject -> string.
Variable decode : string -> string -> option JsObject.
Variable timespan : string -> Z.

Definition seconds (w : World) : Z := clock w / 1000.

Definition stamped (expiresIn : Z) (payload : JsObject) (issuedAt : Z) : JsObject :=
  <["exp" := JsNumber (issuedAt + expiresIn)]>
    (<["iat" := JsNumber issuedAt]> payload).

(** Modelled from the spec: the token library is third-party code.  Per
    the Token Service contract, signing adds the issued-at and expiry
    timestamps, in whole seconds, to the payload and signs the result with
    the secret; verification checks the signature and the expiry and
    yields the signed claims.  The wire format and the signature are left
    to the codec. *)
Definition jwtService (secret : string) (expiresIn : Z) : JwtService.t World :=
  {| JwtService.sign := fun payload w =>
       (inr (encode secret (stamped expiresIn payload (seconds w))), w);
     JwtService.verify := fun token secretOrKey w =>
       match decode secretOrKey token with
       | None => (inl (Error "invalid token"), w)
       | Some claims =>
           match claims !! "exp" with
           | Some (JsNumber exp) =>
               if (exp <=? seconds w)%Z then (inl (Error "jwt expired"), w)
               else (inr claims, w)
           | _ => (inr claims, w)
           end
       end |}.

(** The service [JwtModule.register(options)] provides. *)
Definition register (options : AuthModule.JwtModuleOptions) : JwtService.t World :=
  jwtService (AuthModule.secret options)
    (timespan (AuthModule.signOptions_expiresIn options)).
End Jwt.

(** *** Stand-in codecs for closed examples *)

Module Stub.

(** A length-prefixed text field. *)
Definition field (s : string) : string :=
  digits (String.length s) +:+ ":" +:+ s.

Definition ser_value (v : JsValue) : string :=
  match v with
  | JsUndefined => "u"
  | JsNull => "n"
  | JsBool true => "t"
  | JsBool false => "f"
  | JsNumber n => "i" +:+ field (NilZero.string_of_int (Z.to_int n))
  | JsString s => "s" +:+ field s
  | JsFunction f => "F" +:+ field f
  end.

Definition ser_entry (kv : string * JsValue) : string :=
  field (fst kv) +:+ ser_value (snd kv).

Definition ser_object (o : JsObject) : string :=
  foldr (fun kv acc => ser_entry kv +:+ acc) ""
    (map_to_list (jsonView o)).

(** The token is the claims in clear behind the key: unsigned, but a
    token made with one key does not decode with another. *)
Definition encode (secret : string) (claims : JsObject) : string :=
  field secret +:+ ser_object claims.

Fixpoint split_colon (s : string) : option (string * string) :=
  match s with
  | EmptyString => None
  | String c s' =>
      if Ascii.eqb c ":" then Some (EmptyString, s')
      else match split_colon s' with
           | Some (l, r) => Some (String c l, r)
           | None => None
           end
  end.

Fixpoint take_chars (n : nat) (s : string) : option (string * string) :=
  match n with
  | O => Some (EmptyString, s)
  | S n' =>
      match s with
      | EmptyString => None
      | String c s' =>
          match take_chars n' s' with
          | Some (l, r) => Some (String c l, r)
          | None => None
          end
      end
  end.

Definition parse_field (s : string) : option (string * string) :=
  match split_colon s with
  | Some (len, rest) =>
      match NilZero.uint_of_string len with
      | Some n => take_chars (Nat.of_uint n) rest
      | None => None
      end
  | None => None
  end.

Definition parse_value (s : string) : option (JsValue * string) :=
  match s with
  | String "u" r => Some (JsUndefined, r)
  | String "n" r => Some (JsNull, r)
  | String "t" r => Some (JsBool true, r)
  | String "f" r => Some (JsBool false, r)
  | String "i" r =>
      match parse_field r with
      | Some (d, r') =>
          match NilZero.int_of_string d with
          | Some n => Some (JsNumber (Z.of_int n), r')
          | None => None
          end
      | None => None
      end
  | String "s" r =>
      match parse_field r with
      | Some (x, r') => Some (JsString x, r')
      | None => None
      end
  | String "F" r =>
      match parse_field r with
      | Some (x, r') => Some (JsFunction x, r')
      | None => None
      end
  | _ => None
  end.

Fixpoint parse_entries (fuel : nat) (s : string) : option (list (string * JsValue)) :=
  match s with
  | EmptyString => Some []
  | _ =>
      match fuel with
      | O => None
      | S fuel' =>
          match parse_field s with
          | Some (k, r) =>
              match parse_value r with
              | Some (v, r') =>
                  match parse_entries fuel' r' with
                  | Some l => Some ((k, v) :: l)
                  | None => None
                  end
              | None => None
              end
          | None => None
          end
      end
  end.

Definition decode (secret token : string) : option JsObject :=
  match parse_field token with
  | Some (key, body) =>
      if bool_decide (key = secret) then
        match parse_entries (String.length body) body with
        | Some l => Some (list_to_map l)
        | None => None
        end
      else None
  | None => None
  end.

(** The stored hash is the password in clear behind a salt; a stored
    value without a salt separator matches nothing. *)
Definition bcrypt : Bcrypt.t World :=
  {| Bcrypt.hash := fun data rounds w =>
       (inr (digits (entropy w) +:+ ":" +:+ data), draw w);
     Bcrypt.compare := fun data encrypted w =>
       match split_colon encrypted with
       | Some (salt, rest) => (inr (bool_decide (rest = data)), w)
       | None => (inr false, w)
       end |}.

Definition envs : Envs.t :=
  {| Envs.port := 3000;
     Envs.natsServers := ["nats://localhost:4222"];
     Envs.jwtSecret := "s3cret";
     Envs.jwtExpiresIn := "2h" |}.

Fixpoint split_last (s : string) : string * option ascii :=
  match s with
  | EmptyString => (EmptyString, None)
  | String c EmptyString => (EmptyString, Some c)
  | String c s' => let (init, last) := split_last s' in (String c init, last)
  end.

Definition unit_seconds (u : ascii) : Z :=
  if Ascii.eqb u "s" then 1
  else if Ascii.eqb u "m" then 60
  else if Ascii.eqb u "h" then 3600
  else if Ascii.eqb u "d" then 86400
  else 0.

(** Durations of the form [<digits><s|m|h|d>]. *)
Definition timespan (s : string) : Z :=
  match split_last s with
  | (count, Some u) =>
      match NilZero.uint_of_string count with
      | Some n => Z.of_nat (Nat.of_uint n) * unit_seconds u
      | None => 0
      end
  | (_, None) => 0
  end.

Definition jwtService : JwtService.t World :=
  Ref.register encode decode timespan (AuthModule.jwtModuleOptions envs).

(** A token service whose signing key is unusable: tokens still
    verify, minting throws. *)
Definition signless : JwtService.t World :=
  {| JwtService.sign := fun _ w =>
       (inl (Error "secretOrPrivateKey must have a value"), w);
     JwtService.verify := JwtService.verify jwtService |}.

Definition userRepository := PrismaUserRepository.port prisma.
Definition hasher := BcryptAdapter.port bcrypt.
Definition tokenService := JwtTokenAdapter.port jwtService envs.

Definition ada : PrismaUser.t :=
  {| PrismaUser.id := "uuid-0";
     PrismaUser.email := "ada@x.io";
     PrismaUser.name := "Ada";
     PrismaUser.password := "0:Str0ng!Pass";
     PrismaUser.isActive := true |}.

(** A deactivated account. *)
Definition bob : PrismaUser.t :=
  {| PrismaUser.id := "uuid-1";
     PrismaUser.email := "bob@x.io";
     PrismaUser.name := "Bob";
     PrismaUser.password := "1:hunter2!A";
     PrismaUser.isActive := false |}.

(** An account whose stored hash is empty. *)
Definition eve : PrismaUser.t :=
  {| PrismaUser.id := "uuid-2";
     PrismaUser.email := "eve@x.io";
     PrismaUser.name := "Eve";
     PrismaUser.password := "";
     PrismaUser.isActive := true |}.

Definition w0 : World :=
  {| db := [ada; bob; eve]; clock := 1000500; entropy := 3 |}.

(** Tokens minted in [w0]: for Ada; and one whose claims go beyond the
    identity payload. *)
Definition adaIdentity : JsObject :=
  Spec.identity (JsString "uuid-0") (JsString "ada@x.io") (JsString "Ada").

Definition adaToken : string :=
  encode (Envs.jwtSecret envs) (stamped 7200 adaIdentity (seconds w0)).

Definition scopedToken : string :=
  encode (Envs.jwtSecret envs)
    (stamped 7200
       (<["role" := JsString "admin"]> (<["sub" := JsString "uuid-0"]> adaIdentity))
       (seconds w0)).

Definition empty : World :=
  {| db := []; clock := 1000500; entropy := 0 |}.

(** A world where the next identifier drawn for a new user is Bob's. *)
Definition crowded : World :=
  {| db := [bob]; clock := 1000500; entropy := 0 |}.

(** A database that cannot be reached. *)
Definition offline : PrismaClient.t World :=
  let down := {| err_code := Some "P1001";
                 err_message := Some "Can't reach database server" |} in
  {| PrismaClient.user_findUnique := fun _ w => (inl down, w);
     PrismaClient.user_create := fun _ w => (inl down, w);
     PrismaClient.user_delete := fun _ w => (inl down, w) |}.

(** A database that answers lookups and refuses writes. *)
Definition readonly : PrismaClient.t World :=
  {| PrismaClient.user_findUnique := PrismaClient.user_findUnique prisma;
     PrismaClient.user_create := PrismaClient.user_create offline;
     PrismaClient.user_delete := PrismaClient.user_delete offline |}.

(** A hasher whose native binding fails, with an error that has no
    message. *)
Definition brokenBcrypt : Bcrypt.t World :=
  let failure := {| err_code := None; err_message := None |} in
  {| Bcrypt.hash := fun _ _ w => (inl failure, w);
     Bcrypt.compare := fun _ _ w => (inl failure, w) |}.

(** A validly signed token whose claims hold no identity. *)
Definition roleOnly : JsObject := <["role" := JsString "admin"]> ∅.

Definition anonymousToken : string :=
  encode (Envs.jwtSecret envs) (stamped 7200 roleOnly (seconds w0)).

End Stub.
End Ref.

(** * Properties *)

(** ** The User entity *)













Example updateName_trims :
  User.updateName "  Grace Hopper " (User.new "uuid-7" "grace@x.io" "Grace" None None)
  = (inr tt, User.new "uuid-7" "grace@x.io" "Grace Hopper" None None).
Proof. reflexivity. Qed.

Example updateName_rejects_blank :
  let grace := User.new "uuid-7" "grace@x.io" "Grace" None None in
  User.updateName "   " grace = (inl (Error "User name cannot be empty."), grace)
  /\ User.updateName "" grace = (inl (Error "User name cannot be empty."), grace).
Proof. split; reflexivity. Qed.

(** ** Response shaping *)

Lemma payload_of_rest (user : User.t) :
  let userPayload := rest_without_password user in
  object [ ("id", prop userPayload "id");
           ("email", prop userPayload "email");
           ("name", prop userPayload "name") ] = Spec.identityOf user.
Proof. vm_compute. reflexivity. Qed.

Lemma response_of_rest (user : User.t) :
  let userPayload := rest_without_password user in
  object [ ("id", prop userPayload "id");
           ("email", prop userPayload "email");
           ("name", prop userPayload "name");
           ("isActive", prop userPayload "isActive");
           ("updateName", updateName_ref user) ] = Spec.responseUser user.
Proof. vm_compute. reflexivity. Qed.


(** ** Login *)

(** What the login handler does, path by path. *)
Lemma login_run {W} (userRepository : UserRepositoryPort.t W)
    (hasher : HasherPort.t W) (tokenService : TokenPort.t W)
    (email password : string) (w : W) :
  LoginUserHandler.execute userRepository hasher tokenService
    (LoginUserCommand.mk (LoginUserDto.mk email password)) w =
  let rethrown (error : Exn) :=
    match error with
    | RpcException _ => error
    | Thrown e => RpcException (RpcObj 500
        (nullish (err_message e) "An unexpected error occurred during login."))
    end in
  let invalid := RpcException (RpcObj 400 "User/Password not valid") in
  match UserRepositoryPort.findByEmail userRepository email w with
  | (inl error, w1) => (inl (rethrown error), w1)
  | (inr None, w1) => (inl invalid, w1)
  | (inr (Some user), w1) =>
      match User.password user with
      | None => (inl invalid, w1)
      | Some stored =>
          if falsy stored then (inl invalid, w1)
          else
            match HasherPort.compare hasher password stored w1 with
            | (inl error, w2) => (inl (rethrown error), w2)
            | (inr false, w2) => (inl invalid, w2)
            | (inr true, w2) =>
                match TokenPort.generateToken tokenService
                        (Spec.identityOf user) w2 with
                | (inl error, w3) => (inl (rethrown error), w3)
                | (inr token, w3) =>
                    (inr (AuthResponseDto.mk (Spec.responseUser user) token), w3)
                end
            end
      end
  end.
Proof.
  unfold LoginUserHandler.execute, try_catch, bind, throw, ret.
  cbn [LoginUserDto.email LoginUserDto.password LoginUserCommand.loginUserDto].
  destruct (UserRepositoryPort.findByEmail userRepository email w)
    as [[error|[user|]] w1]; [now destruct error| |reflexivity].
  destruct (User.password user) as [stored|]; [|reflexivity].
  destruct (falsy stored); [reflexivity|].
  destruct (HasherPort.compare hasher password stored w1)
    as [[error|[|]] w2]; [now destruct error| |reflexivity].
  cbn [negb].
  pose proof (payload_of_rest user) as Hp.
  pose proof (response_of_rest user) as Hr.
  cbv zeta in Hp, Hr. rewrite Hp, Hr.
  destruct (TokenPort.generateToken tokenService (Spec.identityOf user) w2)
    as [[error|token] w3]; [now destruct error|reflexivity].
Qed.

Lemma falsy_false (s : string) : s <> "" -> falsy s = false.
Proof. destruct s; [congruence|reflexivity]. Qed.




(** ** Registration *)

(** Registration stops at the lookup when the email is taken: the world is
    the one the lookup left, whatever the other collaborators are. *)
Lemma register_existing_email_stops {W}
    (userRepository : UserRepositoryPort.t W) (hasher : HasherPort.t W)
    (tokenService : TokenPort.t W) (randomUUID : M W JsError string)
    (name email password : string) (w w1 : W) (existing : User.t) :
  UserRepositoryPort.findByEmail userRepository email w = (inr (Some existing), w1) ->
  RegisterUserHandler.execute userRepository hasher tokenService randomUUID
    (RegisterUserCommand.mk (RegisterUserDto.mk name email password)) w
  = (inl (RpcException (RpcObj 400 "User already exists")), w1).
Proof.
  intros Hfind. unfold RegisterUserHandler.execute, try_catch, bind, throw.
  cbn [RegisterUserDto.email RegisterUserCommand.registerUserDto].
  now rewrite Hfind.
Qed.

(** With every collaborator call recorded, the journal gains the lookup
    and nothing else. *)
Lemma register_existing_email_calls {W}
    (userRepository : UserRepositoryPort.t W) (hasher : HasherPort.t W)
    (tokenService : TokenPort.t W) (randomUUID : M W JsError string)
    (name email password : string) (w w1 : W) (existing : User.t)
    (journal : list Spy.Call) :
  UserRepositoryPort.findByEmail userRepository email w = (inr (Some existing), w1) ->
  RegisterUserHandler.execute
    (Spy.userRepository userRepository) (Spy.hasher hasher)
    (Spy.tokenService tokenService) (Spy.randomUUID randomUUID)
    (RegisterUserCommand.mk (RegisterUserDto.mk name email password)) (w, journal)
  = (inl (RpcException (RpcObj 400 "User already exists")),
     (w1, (journal ++ [Spy.FindByEmail email])%list)).
Proof.
  intros Hfind. apply register_existing_email_stops with (existing := existing).
  unfold Spy.userRepository, Spy.spied. cbn [UserRepositoryPort.findByEmail fst snd].
  now rewrite Hfind.
Qed.

(** C2. Registering an email the store already holds, in the reference
    world with every collaborator call recorded: the handler throws status
    400, not 409; the journal holds the lookup alone (no hash, no UUID, no
    save) and the world is unchanged.  Saving a user with that email, the
    path the handler did not reach, throws status 409. *)
Theorem register_existing_email_is_bad_request :
  RegisterUserHandler.execute
    (Spy.userRepository Ref.Stub.userRepository) (Spy.hasher Ref.Stub.hasher)
    (Spy.tokenService Ref.Stub.tokenService) (Spy.randomUUID Ref.randomUUID)
    (RegisterUserCommand.mk (RegisterUserDto.mk "Ada" "ada@x.io" "Str0ng!Pass"))
    (Ref.Stub.w0, [])
  = (inl (RpcException (RpcObj 400 "User already exists")),
     (Ref.Stub.w0, [Spy.FindByEmail "ada@x.io"]))
  /\ PrismaUserRepository.save Ref.prisma
       (User.new "uuid-9" "ada@x.io" "Ada" (Some "9:Str0ng!Pass") None) Ref.Stub.w0
     = (inl (RpcException (RpcObj 409 "User with email ada@x.io already exists.")),
        Ref.Stub.w0).
Proof. split; reflexivity. Qed.

(** ** Token verification *)

Lemma verify_run {W} (tokenService : TokenPort.t W) (token : string) (w : W) :
  VerifyTokenHandler.execute tokenService (VerifyTokenQuery.mk token) w =
  let unauthorized := RpcException (RpcObj 401 "Invalid token") in
  match TokenPort.verifyToken tokenService token w with
  | (inl _, w1) => (inl unauthorized, w1)
  | (inr userPayload, w1) =>
      match TokenPort.generateToken tokenService userPayload w1 with
      | (inl _, w2) => (inl unauthorized, w2)
      | (inr newToken, w2) =>
          (inr (VerifyTokenResponseDto.mk userPayload newToken), w2)
      end
  end.
Proof.
  unfold VerifyTokenHandler.execute, try_catch, bind, throw, ret.
  cbn [VerifyTokenQuery.token].
  destruct (TokenPort.verifyToken tokenService token w)
    as [[error|userPayload] w1]; [reflexivity|].
  now destruct (TokenPort.generateToken tokenService userPayload w1)
    as [[error|newToken] w2].
Qed.

Lemma adapter_verifyToken_run {W} (jwtService : JwtService.t W) (envs : Envs.t)
    (token : string) (w : W) :
  JwtTokenAdapter.verifyToken jwtService envs token w =
  match JwtService.verify jwtService token (Envs.jwtSecret envs) w with
  | (inl error, w') =>
      (inl (RpcException (RpcObj 401
         (nullish (err_message error) "Invalid token."))), w')
  | (inr decoded, w') =>
      (inr (Spec.identity (prop decoded "id") (prop decoded "email")
              (prop decoded "name")), w')
  end.
Proof.
  unfold JwtTokenAdapter.verifyToken, try_catch, bind, throw, ret.
  now destruct (JwtService.verify jwtService token (Envs.jwtSecret envs) w)
    as [[error|decoded] w'].
Qed.

Lemma verify_throws_unauthorized {W} (tokenService : TokenPort.t W)
    (token : string) (w w' : W) (exception : Exn) :
  VerifyTokenHandler.execute tokenService (VerifyTokenQuery.mk token) w
    = (inl exception, w') ->
  exception = RpcException (RpcObj 401 "Invalid token").
Proof.
  rewrite verify_run. cbv zeta.
  destruct (TokenPort.verifyToken tokenService token w)
    as [[error|userPayload] w1]; [congruence|].
  destruct (TokenPort.generateToken tokenService userPayload w1)
    as [[error|newToken] w2]; [congruence|discriminate].
Qed.

Lemma controller_verifyToken_passes {W} (tokenService : TokenPort.t W)
    (token : string) (w : W) :
  AuthController.verifyToken tokenService token w
  = VerifyTokenHandler.execute tokenService (VerifyTokenQuery.mk token) w.
Proof.
  unfold AuthController.verifyToken, AuthController.rethrow, try_catch, throw.
  rewrite verify_run. cbv zeta.
  destruct (TokenPort.verifyToken tokenService token w)
    as [[error|userPayload] w1]; [reflexivity|].
  now destruct (TokenPort.generateToken tokenService userPayload w1)
    as [[error|newToken] w2].
Qed.

(** C9. Whatever the token service throws, and whichever of its two calls
    throws it, the verify handler throws status 401 with the message
    [Invalid token]: so does a failure of the refresh mint after a
    successful verification, and the controller passes that exception on
    unchanged. *)
Theorem verify_collapses_every_failure {W}
    (tokenService : TokenPort.t W) (token : string) (w : W) :
  let unauthorized := RpcException (RpcObj 401 "Invalid token") in
  (forall exception w',
      VerifyTokenHandler.execute tokenService (VerifyTokenQuery.mk token) w
        = (inl exception, w') ->
      exception = unauthorized)
  /\ (forall userPayload w1 mintError w2,
        TokenPort.verifyToken tokenService token w = (inr userPayload, w1) ->
        TokenPort.generateToken tokenService userPayload w1 = (inl mintError, w2) ->
        VerifyTokenHandler.execute tokenService (VerifyTokenQuery.mk token) w
          = (inl unauthorized, w2))
  /\ AuthController.verifyToken tokenService token w
     = VerifyTokenHandler.execute tokenService (VerifyTokenQuery.mk token) w.
Proof.
  intros unauthorized. subst unauthorized. split; [|split].
  - intros exception w'. apply verify_throws_unauthorized.
  - intros userPayload w1 mintError w2 Hverify Hmint.
    rewrite verify_run. cbv zeta. now rewrite Hverify, Hmint.
  - apply controller_verifyToken_passes.
Qed.

(** In the reference world: a token that does not decode, and Ada's token
    presented to a service that verifies but cannot sign. *)
Lemma verify_collapses_every_failure_witness :
  outcome (VerifyTokenHandler.execute Ref.Stub.tokenService
             (VerifyTokenQuery.mk "garbage")) Ref.Stub.w0
    = inl (RpcException (RpcObj 401 "Invalid token"))
  /\ VerifyTokenHandler.execute
       (JwtTokenAdapter.port Ref.Stub.signless Ref.Stub.envs)
       (VerifyTokenQuery.mk Ref.Stub.adaToken) Ref.Stub.w0
     = (inl (RpcException (RpcObj 401 "Invalid token")), Ref.Stub.w0).
Proof.
  split.
  - unfold outcome.
    destruct (VerifyTokenHandler.execute Ref.Stub.tokenService
                (VerifyTokenQuery.mk "garbage") Ref.Stub.w0)
      as [[exception|response] w'] eqn:Hrun.
    + simpl. f_equal.
      exact (proj1 (verify_collapses_every_failure Ref.Stub.tokenService
                      "garbage" Ref.Stub.w0) exception w' Hrun).
    + vm_compute in Hrun. discriminate.
  - apply (proj1 (proj2 (verify_collapses_every_failure
             (JwtTokenAdapter.port Ref.Stub.signless Ref.Stub.envs)
             Ref.Stub.adaToken Ref.Stub.w0))
             Ref.Stub.adaIdentity Ref.Stub.w0
             (Thrown (Error "secretOrPrivateKey must have a value")) Ref.Stub.w0).
    + vm_compute. reflexivity.
    + reflexivity.
Defined.

(** C5, as the specification states it, fails: an expired token makes the
    library throw [jwt expired], a reason the workflow's message neither
    is nor contains. *)
Lemma verify_message_drops_reason :
  let late := Ref.elapse 7200000 Ref.Stub.w0 in
  outcome (JwtService.verify Ref.Stub.jwtService Ref.Stub.adaToken
             (Envs.jwtSecret Ref.Stub.envs)) late
    = inl (Error "jwt expired")
  /\ outcome (VerifyTokenHandler.execute Ref.Stub.tokenService
                (VerifyTokenQuery.mk Ref.Stub.adaToken)) late
     = inl (RpcException (RpcObj 401 "Invalid token"))
  /\ "Invalid token" <> "jwt expired"
  /\ String.index 0 "jwt expired" "Invalid token" = None.
Proof.
  intros late. repeat split; try (vm_compute; reflexivity). discriminate.
Qed.

(** C5, amended. Whenever the library rejects a token, for whatever
    reason, the verify workflow throws status 401 with the fixed message
    [Invalid token]; the reason is carried by the exception of the token
    adapter, status 401 as well, which the workflow replaces. *)
Theorem verify_failure_is_uniform {W} (jwtService : JwtService.t W)
    (envs : Envs.t) (token : string) (w w' : W) (reason : JsError) :
  JwtService.verify jwtService token (Envs.jwtSecret envs) w = (inl reason, w') ->
  JwtTokenAdapter.verifyToken jwtService envs token w
    = (inl (RpcException (RpcObj 401
         (nullish (err_message reason) "Invalid token."))), w')
  /\ VerifyTokenHandler.execute (JwtTokenAdapter.port jwtService envs)
       (VerifyTokenQuery.mk token) w
     = (inl (RpcException (RpcObj 401 "Invalid token")), w').
Proof.
  intros Hverify. assert (Hadapter :
    JwtTokenAdapter.verifyToken jwtService envs token w
    = (inl (RpcException (RpcObj 401
         (nullish (err_message reason) "Invalid token."))), w')).
  { rewrite adapter_verifyToken_run. now rewrite Hverify. }
  split; [exact Hadapter|].
  rewrite verify_run. cbv zeta.
  unfold JwtTokenAdapter.port. cbn [TokenPort.verifyToken].
  now rewrite Hadapter.
Qed.

(** An expired token and a malformed one, in the reference world. *)
Lemma verify_failure_is_uniform_witness :
  let late := Ref.elapse 7200000 Ref.Stub.w0 in
  VerifyTokenHandler.execute Ref.Stub.tokenService
    (VerifyTokenQuery.mk Ref.Stub.adaToken) late
    = (inl (RpcException (RpcObj 401 "Invalid token")), late)
  /\ VerifyTokenHandler.execute Ref.Stub.tokenService
       (VerifyTokenQuery.mk "garbage") Ref.Stub.w0
     = (inl (RpcException (RpcObj 401 "Invalid token")), Ref.Stub.w0).
Proof.
  intros late. split.
  - apply (verify_failure_is_uniform Ref.Stub.jwtService Ref.Stub.envs
             Ref.Stub.adaToken late late (Error "jwt expired")).
    vm_compute. reflexivity.
  - apply (verify_failure_is_uniform Ref.Stub.jwtService Ref.Stub.envs
             "garbage" Ref.Stub.w0 Ref.Stub.w0 (Error "invalid token")).
    reflexivity.
Defined.

(** C6. A payload the token adapter returns has exactly the keys [id],
    [email] and [name], each with the value the decoded token has for it;
    [iat], [exp] and any other claim of the decoded token are gone. *)
Theorem verifyToken_strips_transport_claims {W} (jwtService : JwtService.t W)
    (envs : Envs.t) (token : string) (w w' : W) (payload : JsObject) :
  JwtTokenAdapter.verifyToken jwtService envs token w = (inr payload, w') ->
  dom payload = Spec.identityKeys
  /\ payload !! "iat" = None /\ payload !! "exp" = None
  /\ (forall key, key ∉ Spec.identityKeys -> payload !! key = None)
  /\ exists decoded,
       JwtService.verify jwtService token (Envs.jwtSecret envs) w = (inr decoded, w')
       /\ forall key, key ∈ Spec.identityKeys -> payload !! key = Some (prop decoded key).
Proof.
  rewrite adapter_verifyToken_run.
  destruct (JwtService.verify jwtService token (Envs.jwtSecret envs) w)
    as [[error|decoded] w1]; [discriminate|].
  intros [= <- <-].
  assert (Hdom : dom (Spec.identity (prop decoded "id") (prop decoded "email")
                        (prop decoded "name")) = Spec.identityKeys).
  { unfold Spec.identity, object, Spec.identityKeys. simpl.
    rewrite !dom_insert_L, dom_empty_L. set_solver. }
  split; [exact Hdom|].
  split; [reflexivity|]. split; [reflexivity|]. split.
  - intros key Hkey. apply not_elem_of_dom. now rewrite Hdom.
  - exists decoded. split; [reflexivity|].
    intros key Hkey. unfold Spec.identityKeys in Hkey.
    apply elem_of_union in Hkey as [Hkey|Hkey];
      [apply elem_of_union in Hkey as [Hkey|Hkey]|];
      apply elem_of_singleton in Hkey; subst key; reflexivity.
Qed.

(** The verified token of the reference world carries a role and a
    subject; the payload does not. *)
Lemma verifyToken_strips_transport_claims_witness :
  JwtTokenAdapter.verifyToken Ref.Stub.jwtService Ref.Stub.envs
    Ref.Stub.scopedToken Ref.Stub.w0 = (inr Ref.Stub.adaIdentity, Ref.Stub.w0)
  /\ dom Ref.Stub.adaIdentity = Spec.identityKeys
  /\ Ref.Stub.adaIdentity !! "exp" = None
  /\ Ref.Stub.adaIdentity !! "role" = None.
Proof.
  assert (Hrun : JwtTokenAdapter.verifyToken Ref.Stub.jwtService Ref.Stub.envs
                   Ref.Stub.scopedToken Ref.Stub.w0
                 = (inr Ref.Stub.adaIdentity, Ref.Stub.w0)).
  { vm_compute. reflexivity. }
  destruct (verifyToken_strips_transport_claims Ref.Stub.jwtService
              Ref.Stub.envs Ref.Stub.scopedToken Ref.Stub.w0 Ref.Stub.w0
              Ref.Stub.adaIdentity Hrun) as (Hdom & _ & Hexp & Hother & _).
  split; [exact Hrun|]. split; [exact Hdom|]. split; [exact Hexp|].
  apply Hother. vm_compute. intros H. discriminate H.
Defined.

(** ** Minting and refreshing in the reference token service *)

Section ReferenceTokens.
Variable encode : string -> JsObject -> string.
Variable decode : string -> string -> option JsObject.
Variable timespan : string -> Z.
Variable envs : Envs.t.

Let options := AuthModule.jwtModuleOptions envs.
Let expiresIn := timespan (AuthModule.signOptions_expiresIn options).
Let tokenService : TokenPort.t Ref.World :=
  JwtTokenAdapter.port (Ref.register encode decode timespan options) envs.

Lemma stamped_exp (payload : JsObject) (issuedAt : Z) :
  Ref.stamped expiresIn payload issuedAt !! "exp"
  = Some (JsNumber (issuedAt + expiresIn)).
Proof. unfold Ref.stamped. apply lookup_insert_eq. Qed.

Lemma identity_of_stamped (id email name : JsValue) (issuedAt : Z) :
  let claims := Ref.stamped expiresIn (Spec.identity id email name) issuedAt in
  Spec.identity (prop claims "id") (prop claims "email") (prop claims "name")
  = Spec.identity id email name.
Proof. reflexivity. Qed.

Lemma reference_generateToken (payload : JsObject) (w : Ref.World) :
  TokenPort.generateToken tokenService payload w
  = (inr (encode (Envs.jwtSecret envs)
            (Ref.stamped expiresIn payload (Ref.seconds w))), w).
Proof. reflexivity. Qed.

Lemma reference_verifyToken (id email name : JsValue) (issuedAt : Z)
    (token : string) (w : Ref.World) :
  decode (Envs.jwtSecret envs) token
    = Some (Ref.stamped expiresIn (Spec.identity id email name) issuedAt) ->
  Ref.seconds w < issuedAt + expiresIn ->
  TokenPort.verifyToken tokenService token w
  = (inr (Spec.identity id email name), w).
Proof.
  intros Hdecode Hfresh.
  unfold tokenService, JwtTokenAdapter.port. cbn [TokenPort.verifyToken].
  rewrite adapter_verifyToken_run.
  unfold Ref.register, Ref.jwtService. cbn [JwtService.verify].
  rewrite Hdecode, stamped_exp.
  replace (issuedAt + expiresIn <=? Ref.seconds w)%Z with false
    by (symmetry; apply Z.leb_gt; lia).
  now rewrite identity_of_stamped.
Qed.

Lemma stamped_issuedAt (payload : JsObject) (t t' : Z) :
  Ref.stamped expiresIn payload t = Ref.stamped expiresIn payload t' -> t = t'.
Proof.
  assert (Hiat : forall issuedAt,
    Ref.stamped expiresIn payload issuedAt !! "iat" = Some (JsNumber issuedAt)).
  { intros issuedAt. unfold Ref.stamped.
    rewrite lookup_insert_ne by discriminate. apply lookup_insert_eq. }
  intros H. apply (f_equal (fun claims => claims !! "iat")) in H.
  rewrite !Hiat in H. congruence.
Qed.

(** C3, amended. A token minted for a payload [{id, email, name}] and
    verified before it expires: verification succeeds, the [user] of the
    response is that payload, and the [token] of the response is what
    [generateToken] mints for the payload at verification time.  That
    token is the input token when minting and verification fall in the
    same clock second, and differs from it when they do not. *)
Theorem verify_refreshes_minted_token (id email name token : string)
    (minted verified : Ref.World) :
  let payload := Spec.identity (JsString id) (JsString email) (JsString name) in
  let claimsAt w := Ref.stamped expiresIn payload (Ref.seconds w) in
  TokenPort.generateToken tokenService payload minted = (inr token, minted) ->
  decode (Envs.jwtSecret envs) token = Some (claimsAt minted) ->
  Ref.seconds verified < Ref.seconds minted + expiresIn ->
  exists newToken,
    VerifyTokenHandler.execute tokenService (VerifyTokenQuery.mk token) verified
      = (inr (VerifyTokenResponseDto.mk payload newToken), verified)
    /\ TokenPort.generateToken tokenService payload verified
       = (inr newToken, verified)
    /\ (Ref.seconds verified = Ref.seconds minted -> newToken = token)
    /\ (decode (Envs.jwtSecret envs) newToken = Some (claimsAt verified) ->
        Ref.seconds verified <> Ref.seconds minted -> newToken <> token).
Proof.
  intros payload claimsAt Hmint Hdecode Hfresh.
  rewrite reference_generateToken in Hmint. injection Hmint as Htoken.
  exists (encode (Envs.jwtSecret envs) (claimsAt verified)).
  split; [|split; [|split]].
  - rewrite verify_run. cbv zeta.
    rewrite (reference_verifyToken (JsString id) (JsString email) (JsString name)
               (Ref.seconds minted) token verified Hdecode Hfresh).
    now rewrite reference_generateToken.
  - apply reference_generateToken.
  - intros Hsame. unfold claimsAt. now rewrite Hsame.
  - intros Hdecode' Hlater Hequal. apply Hlater.
    rewrite Hequal, Hdecode in Hdecode'. apply (inj Some) in Hdecode'.
    symmetry. exact (stamped_issuedAt payload _ _ Hdecode').
Qed.


End ReferenceTokens.

(** C3, as the specification states it, fails: Ada's token, minted at
    1000.5 s and verified 400 ms later, comes back unchanged. *)
Lemma refreshed_token_equals_input :
  let later := Ref.elapse 400 Ref.Stub.w0 in
  TokenPort.generateToken Ref.Stub.tokenService Ref.Stub.adaIdentity Ref.Stub.w0
    = (inr Ref.Stub.adaToken, Ref.Stub.w0)
  /\ exists response,
       VerifyTokenHandler.execute Ref.Stub.tokenService
         (VerifyTokenQuery.mk Ref.Stub.adaToken) later = (inr response, later)
       /\ VerifyTokenResponseDto.user response = Ref.Stub.adaIdentity
       /\ VerifyTokenResponseDto.token response = Ref.Stub.adaToken.
Proof.
  intros later. split; [reflexivity|].
  exists (VerifyTokenResponseDto.mk Ref.Stub.adaIdentity Ref.Stub.adaToken).
  split; [vm_compute; reflexivity|]. split; reflexivity.
Qed.

(** Ada's token verified within the second of its minting and 1.4 s
    after it. *)
Lemma verify_refreshes_minted_token_witness :
  let verify w :=
    VerifyTokenHandler.execute Ref.Stub.tokenService
      (VerifyTokenQuery.mk Ref.Stub.adaToken) w in
  (exists newToken,
      verify (Ref.elapse 400 Ref.Stub.w0)
        = (inr (VerifyTokenResponseDto.mk Ref.Stub.adaIdentity newToken),
           Ref.elapse 400 Ref.Stub.w0)
      /\ newToken = Ref.Stub.adaToken)
  /\ (exists newToken,
        verify (Ref.elapse 1400 Ref.Stub.w0)
          = (inr (VerifyTokenResponseDto.mk Ref.Stub.adaIdentity newToken),
             Ref.elapse 1400 Ref.Stub.w0)
        /\ newToken <> Ref.Stub.adaToken).
Proof.
  intros verify. split.
  - destruct (verify_refreshes_minted_token Ref.Stub.encode Ref.Stub.decode
                Ref.Stub.timespan Ref.Stub.envs "uuid-0" "ada@x.io" "Ada"
                Ref.Stub.adaToken Ref.Stub.w0 (Ref.elapse 400 Ref.Stub.w0))
      as (newToken & Hrun & _ & Hsame & _).
    + reflexivity.
    + vm_compute. reflexivity.
    + vm_compute. reflexivity.
    + exists newToken. split; [exact Hrun|]. apply Hsame. reflexivity.
  - destruct (verify_refreshes_minted_token Ref.Stub.encode Ref.Stub.decode
                Ref.Stub.timespan Ref.Stub.envs "uuid-0" "ada@x.io" "Ada"
                Ref.Stub.adaToken Ref.Stub.w0 (Ref.elapse 1400 Ref.Stub.w0))
      as (newToken & Hrun & Hmint & _ & Hdiffer).
    + reflexivity.
    + vm_compute. reflexivity.
    + vm_compute. reflexivity.
    + exists newToken. split; [exact Hrun|].
      injection Hmint as <-. apply Hdiffer.
      * vm_compute. reflexivity.
      * vm_compute. discriminate.
Defined.


(** ** Registration and the shape of responses *)

(** What the register handler does, path by path. *)
Lemma register_run {W} (userRepository : UserRepositoryPort.t W)
    (hasher : HasherPort.t W) (tokenService : TokenPort.t W)
    (randomUUID : M W JsError string) (name email password : string) (w : W) :
  RegisterUserHandler.execute userRepository hasher tokenService randomUUID
    (RegisterUserCommand.mk (RegisterUserDto.mk name email password)) w =
  let rethrown (error : Exn) :=
    match error with
    | RpcException _ => error
    | Thrown e => RpcException (RpcObj 500
        (nullish (err_message e)
                 "An unexpected error occurred during registration."))
    end in
  match UserRepositoryPort.findByEmail userRepository email w with
  | (inl error, w1) => (inl (rethrown error), w1)
  | (inr (Some _), w1) => (inl (RpcException (RpcObj 400 "User already exists")), w1)
  | (inr None, w1) =>
      match HasherPort.hash hasher password w1 with
      | (inl error, w2) => (inl (rethrown error), w2)
      | (inr hashedPassword, w2) =>
          match randomUUID w2 with
          | (inl error, w3) => (inl (rethrown (Thrown error)), w3)
          | (inr id, w3) =>
              match UserRepositoryPort.save userRepository
                      (User.new id email name (Some hashedPassword) None) w3 with
              | (inl error, w4) => (inl (rethrown error), w4)
              | (inr savedUser, w4) =>
                  match TokenPort.generateToken tokenService
                          (Spec.identityOf savedUser) w4 with
                  | (inl error, w5) => (inl (rethrown error), w5)
                  | (inr token, w5) =>
                      (inr (AuthResponseDto.mk (Spec.responseUser savedUser) token), w5)
                  end
              end
          end
      end
  end.
Proof.
  unfold RegisterUserHandler.execute, try_catch, bind, throw, ret, lib.
  cbn [RegisterUserDto.email RegisterUserDto.name RegisterUserDto.password
       RegisterUserCommand.registerUserDto].
  destruct (UserRepositoryPort.findByEmail userRepository email w)
    as [[error|[existing|]] w1]; [now destruct error|reflexivity|].
  destruct (HasherPort.hash hasher password w1)
    as [[error|hashedPassword] w2]; [now destruct error|].
  destruct (randomUUID w2) as [[error|id] w3]; [reflexivity|].
  destruct (UserRepositoryPort.save userRepository
              (User.new id email name (Some hashedPassword) None) w3)
    as [[error|savedUser] w4]; [now destruct error|].
  pose proof (payload_of_rest savedUser) as Hp.
  pose proof (response_of_rest savedUser) as Hr.
  cbv zeta in Hp, Hr. rewrite Hp, Hr.
  destruct (TokenPort.generateToken tokenService (Spec.identityOf savedUser) w4)
    as [[error|token] w5]; [now destruct error|reflexivity].
Qed.





(** ** The error envelope *)

Lemma enveloped_status (status : Z) (message : string) :
  In status Spec.statusCodes ->
  Spec.enveloped (RpcException (RpcObj status message)).
Proof. intros H. exists status, message. now split. Qed.

Create HintDb envelope.
#[local] Hint Resolve enveloped_status : envelope.
#[local] Hint Extern 1 (In _ Spec.statusCodes) => (simpl; tauto) : envelope.

Section Envelope.
Context {W : Type}.
Variable prisma : PrismaClient.t W.
Variable bcrypt : Bcrypt.t W.
Variable jwtService : JwtService.t W.
Variable randomUUID : M W JsError string.
Variable envs : Envs.t.
Variable isoNow : W -> string.










End Envelope.


(** * Further properties of the code *)

(** ** The entity's name *)







(** ** Rows and entities *)

(** X9. A row mapped to an entity and back is the same row.  An entity
    mapped to a row and back keeps every field except a missing password,
    which comes back as the empty string: the round trip is the identity
    exactly on the entities that have a password. *)
Theorem row_entity_round_trip (row : PrismaUser.t) (user : User.t) :
  PrismaUserRepository.mapToPrismaCreateData (PrismaUserRepository.entityOf row) = row
  /\ PrismaUserRepository.mapToDomain
       (Some (PrismaUserRepository.mapToPrismaCreateData user))
     = Some (User.mk (User.id user) (User.email user) (User.name user)
               (Some (nullish (User.password user) "")) (User.isActive user))
  /\ (PrismaUserRepository.mapToDomain
        (Some (PrismaUserRepository.mapToPrismaCreateData user)) = Some user
      <-> User.password user <> None).
Proof.
  split; [now destruct row|]. split; [reflexivity|].
  destruct user as [id email name [hash|] isActive]; simpl.
  - split; [discriminate|reflexivity].
  - split; [discriminate|congruence].
Qed.

(** ** The repository adapter *)

(** X8. The repository never throws a plain error.  A failed lookup is
    status 500 with a fixed message; a failed save is status 409 naming
    the email when Prisma reports the unique-constraint code P2002 and
    status 500 otherwise; a failed delete is status 404 naming the id when
    Prisma reports P2025 and status 500 otherwise.  No message of the
    database reaches the caller. *)
Theorem repository_error_taxonomy {W} (prisma : PrismaClient.t W)
    (w w' : W) (exception : Exn) :
  (forall id,
      PrismaUserRepository.findById prisma id w = (inl exception, w') ->
      exception = RpcException (RpcObj 500 "Database error finding user by ID."))
  /\ (forall email,
        PrismaUserRepository.findByEmail prisma email w = (inl exception, w') ->
        exception = RpcException (RpcObj 500 "Database error finding user by email."))
  /\ (forall user,
        PrismaUserRepository.save prisma user w = (inl exception, w') ->
        exists error,
          PrismaClient.user_create prisma
            (PrismaUserRepository.mapToPrismaCreateData user) w = (inl error, w')
          /\ exception =
             if decide (err_code error = Some "P2002")
             then RpcException (RpcObj 409
                    ("User with email " +:+ User.email user +:+ " already exists."))
             else RpcException (RpcObj 500 "Database error saving user."))
  /\ (forall id,
        PrismaUserRepository.delete prisma id w = (inl exception, w') ->
        exists error,
          PrismaClient.user_delete prisma (PrismaClient.WhereId id) w = (inl error, w')
          /\ exception =
             if decide (err_code error = Some "P2025")
             then RpcException (RpcObj 404 ("User with ID " +:+ id +:+ " not found."))
             else RpcException (RpcObj 500 "Database error deleting user.")).
Proof.
  split; [|split; [|split]].
  - intros id. unfold PrismaUserRepository.findById, try_catch, bind, throw, ret.
    destruct (PrismaClient.user_findUnique prisma _ w) as [[error|row] w1];
      [|discriminate]. now intros [= <- _].
  - intros email. unfold PrismaUserRepository.findByEmail, try_catch, bind, throw, ret.
    destruct (PrismaClient.user_findUnique prisma _ w) as [[error|row] w1];
      [|discriminate]. now intros [= <- _].
  - intros user. unfold PrismaUserRepository.save, try_catch, bind, throw, ret.
    destruct (PrismaClient.user_create prisma _ w) as [[error|row] w1];
      [|discriminate].
    intros Hthrown. exists error.
    destruct (decide (err_code error = Some "P2002"));
      injection Hthrown as <- <-; now split.
  - intros id. unfold PrismaUserRepository.delete, try_catch, bind, throw, ret.
    destruct (PrismaClient.user_delete prisma _ w) as [[error|row] w1];
      [|discriminate].
    intros Hthrown. exists error.
    destruct (decide (err_code error = Some "P2025"));
      injection Hthrown as <- <-; now split.
Qed.

(** Saving a second Ada, deleting an unknown id, and a lookup while the
    database is down. *)
Lemma repository_error_taxonomy_witness :
  PrismaUserRepository.save Ref.prisma
    (User.new "uuid-9" "ada@x.io" "Ada" (Some "9:Str0ng!Pass") None) Ref.Stub.w0
    = (inl (RpcException (RpcObj 409 "User with email ada@x.io already exists.")),
       Ref.Stub.w0)
  /\ PrismaUserRepository.delete Ref.prisma "uuid-404" Ref.Stub.w0
     = (inl (RpcException (RpcObj 404 "User with ID uuid-404 not found.")),
        Ref.Stub.w0)
  /\ PrismaUserRepository.findByEmail Ref.Stub.offline "ada@x.io" Ref.Stub.w0
     = (inl (RpcException (RpcObj 500 "Database error finding user by email.")),
        Ref.Stub.w0).
Proof.
  split; [|split].
  - destruct (PrismaUserRepository.save Ref.prisma
                (User.new "uuid-9" "ada@x.io" "Ada" (Some "9:Str0ng!Pass") None)
                Ref.Stub.w0) as [[exception|saved] w'] eqn:Hrun;
      [|vm_compute in Hrun; discriminate].
    destruct (proj1 (proj2 (proj2 (repository_error_taxonomy Ref.prisma
                Ref.Stub.w0 w' exception))) _ Hrun) as (error & Hcreate & ->).
    vm_compute in Hcreate. injection Hcreate as <- <-. reflexivity.
  - destruct (PrismaUserRepository.delete Ref.prisma "uuid-404" Ref.Stub.w0)
      as [[exception|deleted] w'] eqn:Hrun; [|vm_compute in Hrun; discriminate].
    destruct (proj2 (proj2 (proj2 (repository_error_taxonomy Ref.prisma
                Ref.Stub.w0 w' exception))) _ Hrun) as (error & Hdelete & ->).
    vm_compute in Hdelete. injection Hdelete as <- <-. reflexivity.
  - destruct (PrismaUserRepository.findByEmail Ref.Stub.offline "ada@x.io"
                Ref.Stub.w0) as [[exception|found] w'] eqn:Hrun;
      [|vm_compute in Hrun; discriminate].
    rewrite (proj1 (proj2 (repository_error_taxonomy Ref.Stub.offline
               Ref.Stub.w0 w' exception)) _ Hrun).
    vm_compute in Hrun. now injection Hrun as _ <-.
Defined.

(** ** The controller *)


(** ** What login calls *)

Lemma journal_two {A} (journal : list A) (a b : A) :
  ((journal ++ [a]) ++ [b])%list = (journal ++ [a; b])%list.
Proof. now rewrite <- app_assoc. Qed.

Lemma journal_three {A} (journal : list A) (a b c : A) :
  (((journal ++ [a]) ++ [b]) ++ [c])%list = (journal ++ [a; b; c])%list.
Proof. now rewrite <- !app_assoc. Qed.

(** X5. Login only reads.  With every collaborator call recorded, a login
    adds to the journal the lookup by email, then at most one comparison,
    then at most one mint, in this order: it never saves, deletes, hashes
    or draws an identifier, whether it succeeds or fails. *)
Theorem login_only_reads {W} (userRepository : UserRepositoryPort.t W)
    (hasher : HasherPort.t W) (tokenService : TokenPort.t W)
    (email password : string) (w : W) (journal : list Spy.Call) :
  exists calls,
    snd (world_after
           (LoginUserHandler.execute (Spy.userRepository userRepository)
              (Spy.hasher hasher) (Spy.tokenService tokenService)
              (LoginUserCommand.mk (LoginUserDto.mk email password)))
           (w, journal))
    = (journal ++ calls)%list
    /\ Spec.loginCalls email password calls
    /\ (forall user, Spy.Save user ∉ calls)
    /\ (forall id, Spy.Delete id ∉ calls)
    /\ (forall plainText, Spy.Hash plainText ∉ calls)
    /\ Spy.RandomUUID ∉ calls.
Proof.
  assert (Hreads : forall calls, Spec.loginCalls email password calls ->
            (forall user, Spy.Save user ∉ calls)
            /\ (forall id, Spy.Delete id ∉ calls)
            /\ (forall plainText, Spy.Hash plainText ∉ calls)
            /\ Spy.RandomUUID ∉ calls).
  { intros calls [->|[(stored & ->)|(stored & payload & ->)]];
      repeat split; intros; rewrite ?elem_of_cons, elem_of_nil;
      intuition discriminate. }
  unfold world_after. rewrite login_run. cbv zeta.
  unfold Spy.userRepository, Spy.hasher, Spy.tokenService, Spy.spied.
  cbn [UserRepositoryPort.findByEmail HasherPort.compare
       TokenPort.generateToken fst snd].
  assert (Hone : Spec.loginCalls email password [Spy.FindByEmail email])
    by now left.
  destruct (UserRepositoryPort.findByEmail userRepository email w)
    as [[error|[user|]] w1]; cbn [fst snd];
    try (exists [Spy.FindByEmail email]; split; [reflexivity|];
         split; [exact Hone|now apply Hreads]).
  destruct (User.password user) as [stored|];
    try (exists [Spy.FindByEmail email]; split; [reflexivity|];
         split; [exact Hone|now apply Hreads]).
  destruct (falsy stored);
    try (exists [Spy.FindByEmail email]; split; [reflexivity|];
         split; [exact Hone|now apply Hreads]).
  assert (Htwo : Spec.loginCalls email password
                   [Spy.FindByEmail email; Spy.Compare password stored])
    by (right; left; now exists stored).
  destruct (HasherPort.compare hasher password stored w1)
    as [[error|[|]] w2]; cbn [fst snd];
    try (exists [Spy.FindByEmail email; Spy.Compare password stored];
         split; [apply journal_two|]; split; [exact Htwo|now apply Hreads]).
  assert (Hthree : Spec.loginCalls email password
                     [Spy.FindByEmail email; Spy.Compare password stored;
                      Spy.GenerateToken (Spec.identityOf user)])
    by (right; right; now exists stored, (Spec.identityOf user)).
  destruct (TokenPort.generateToken tokenService (Spec.identityOf user) w2)
    as [[error|token] w3]; cbn [fst snd];
    (exists [Spy.FindByEmail email; Spy.Compare password stored;
             Spy.GenerateToken (Spec.identityOf user)];
     split; [apply journal_three|]; split; [exact Hthree|now apply Hreads]).
Qed.

(** ** What registration calls, saves and reports *)

Lemma journal_five {A} (journal : list A) (a b c d e : A) :
  (((((journal ++ [a]) ++ [b]) ++ [c]) ++ [d]) ++ [e])%list
  = (journal ++ [a; b; c; d; e])%list.
Proof. now rewrite <- !app_assoc. Qed.

(** A registration whose lookup, hash, identifier and save went through,
    with every call recorded, up to the outcome of the mint. *)
Lemma register_recorded {W} (userRepository : UserRepositoryPort.t W)
    (hasher : HasherPort.t W) (tokenService : TokenPort.t W)
    (randomUUID : M W JsError string) (name email password hashed id : string)
    (savedUser : User.t) (w w1 w2 w3 w4 : W) (journal : list Spy.Call) :
  UserRepositoryPort.findByEmail userRepository email w = (inr None, w1) ->
  HasherPort.hash hasher password w1 = (inr hashed, w2) ->
  randomUUID w2 = (inr id, w3) ->
  UserRepositoryPort.save userRepository
    (User.mk id email name (Some hashed) true) w3 = (inr savedUser, w4) ->
  RegisterUserHandler.execute
    (Spy.userRepository userRepository) (Spy.hasher hasher)
    (Spy.tokenService tokenService) (Spy.randomUUID randomUUID)
    (RegisterUserCommand.mk (RegisterUserDto.mk name email password)) (w, journal)
  = let calls :=
      [Spy.FindByEmail email; Spy.Hash password; Spy.RandomUUID;
       Spy.Save (User.mk id email name (Some hashed) true);
       Spy.GenerateToken (Spec.identityOf savedUser)] in
    match TokenPort.generateToken tokenService (Spec.identityOf savedUser) w4 with
    | (inl exception, w5) =>
        (inl (Spec.rethrown Spec.registrationFallback exception),
         (w5, (journal ++ calls)%list))
    | (inr token, w5) =>
        (inr (AuthResponseDto.mk (Spec.responseUser savedUser) token),
         (w5, (journal ++ calls)%list))
    end.
Proof.
  intros Hfind Hhash Hid Hsave. rewrite register_run. cbv zeta.
  unfold Spy.userRepository, Spy.hasher, Spy.tokenService, Spy.randomUUID,
    Spy.spied.
  cbn [UserRepositoryPort.findByEmail UserRepositoryPort.save HasherPort.hash
       TokenPort.generateToken fst snd].
  rewrite Hfind. cbn [fst snd]. rewrite Hhash. cbn [fst snd].
  rewrite Hid. cbn [fst snd].
  change (User.new id email name (Some hashed) None)
    with (User.mk id email name (Some hashed) true).
  rewrite Hsave. cbn [fst snd]. rewrite journal_five.
  now destruct (TokenPort.generateToken tokenService (Spec.identityOf savedUser) w4)
    as [[exception|token] w5].
Qed.

(** X1. A registration that goes through calls its collaborators in this
    order: lookup by email, hash of the password, identifier, save, mint.
    What it saves is the generated identifier, the email and name of the
    request, the hash (never the password) and [isActive = true]; what it
    returns is built from the user the store returned, not from the one it
    sent. *)
Theorem register_calls_in_order {W} (userRepository : UserRepositoryPort.t W)
    (hasher : HasherPort.t W) (tokenService : TokenPort.t W)
    (randomUUID : M W JsError string)
    (name email password hashed id token : string)
    (savedUser : User.t) (w w1 w2 w3 w4 w5 : W) (journal : list Spy.Call) :
  UserRepositoryPort.findByEmail userRepository email w = (inr None, w1) ->
  HasherPort.hash hasher password w1 = (inr hashed, w2) ->
  randomUUID w2 = (inr id, w3) ->
  UserRepositoryPort.save userRepository
    (User.mk id email name (Some hashed) true) w3 = (inr savedUser, w4) ->
  TokenPort.generateToken tokenService (Spec.identityOf savedUser) w4
    = (inr token, w5) ->
  RegisterUserHandler.execute
    (Spy.userRepository userRepository) (Spy.hasher hasher)
    (Spy.tokenService tokenService) (Spy.randomUUID randomUUID)
    (RegisterUserCommand.mk (RegisterUserDto.mk name email password)) (w, journal)
  = (inr (AuthResponseDto.mk (Spec.responseUser savedUser) token),
     (w5, (journal ++
           [Spy.FindByEmail email; Spy.Hash password; Spy.RandomUUID;
            Spy.Save (User.mk id email name (Some hashed) true);
            Spy.GenerateToken (Spec.identityOf savedUser)])%list)).
Proof.
  intros Hfind Hhash Hid Hsave Hmint.
  rewrite (register_recorded _ _ _ _ _ _ _ _ _ _ _ _ _ _ _ _ Hfind Hhash Hid Hsave).
  cbv zeta. now rewrite Hmint.
Qed.

(** Ada registers in the empty reference world. *)
Lemma register_calls_in_order_witness :
  exists token world,
    RegisterUserHandler.execute
      (Spy.userRepository Ref.Stub.userRepository) (Spy.hasher Ref.Stub.hasher)
      (Spy.tokenService Ref.Stub.tokenService) (Spy.randomUUID Ref.randomUUID)
      (RegisterUserCommand.mk (RegisterUserDto.mk "Ada" "ada@x.io" "Str0ng!Pass"))
      (Ref.Stub.empty, [])
    = (inr (AuthResponseDto.mk
              (Spec.responseUser
                 (User.mk "uuid-1" "ada@x.io" "Ada" (Some "0:Str0ng!Pass") true))
              token),
       (world,
        [Spy.FindByEmail "ada@x.io"; Spy.Hash "Str0ng!Pass"; Spy.RandomUUID;
         Spy.Save (User.mk "uuid-1" "ada@x.io" "Ada" (Some "0:Str0ng!Pass") true);
         Spy.GenerateToken
           (Spec.identityOf
              (User.mk "uuid-1" "ada@x.io" "Ada" (Some "0:Str0ng!Pass") true))]))
    /\ Ref.db world
       = [PrismaUser.mk "uuid-1" "ada@x.io" "Ada" "0:Str0ng!Pass" true].
Proof.
  eexists. eexists. split.
  - eapply (register_calls_in_order Ref.Stub.userRepository Ref.Stub.hasher
             Ref.Stub.tokenService Ref.randomUUID
             "Ada" "ada@x.io" "Str0ng!Pass" "0:Str0ng!Pass" "uuid-1" _
             (User.mk "uuid-1" "ada@x.io" "Ada" (Some "0:Str0ng!Pass") true)
             Ref.Stub.empty Ref.Stub.empty _ _ _ _ []);
      reflexivity.
  - reflexivity.
Defined.

(** X2. Registration does not undo a save.  When the mint fails after the
    user was saved, the call fails (an [RpcException] as it is, anything
    else as status 500 with the error's message) and the journal ends
    with the save and the mint: no delete follows, the user stays in the
    store without ever having received a token. *)
Theorem register_keeps_user_when_mint_fails {W}
    (userRepository : UserRepositoryPort.t W) (hasher : HasherPort.t W)
    (tokenService : TokenPort.t W) (randomUUID : M W JsError string)
    (name email password hashed id : string) (savedUser : User.t)
    (exception : Exn) (w w1 w2 w3 w4 w5 : W) (journal : list Spy.Call) :
  UserRepositoryPort.findByEmail userRepository email w = (inr None, w1) ->
  HasherPort.hash hasher password w1 = (inr hashed, w2) ->
  randomUUID w2 = (inr id, w3) ->
  UserRepositoryPort.save userRepository
    (User.mk id email name (Some hashed) true) w3 = (inr savedUser, w4) ->
  TokenPort.generateToken tokenService (Spec.identityOf savedUser) w4
    = (inl exception, w5) ->
  RegisterUserHandler.execute
    (Spy.userRepository userRepository) (Spy.hasher hasher)
    (Spy.tokenService tokenService) (Spy.randomUUID randomUUID)
    (RegisterUserCommand.mk (RegisterUserDto.mk name email password)) (w, journal)
  = (inl (Spec.rethrown Spec.registrationFallback exception),
     (w5, (journal ++
           [Spy.FindByEmail email; Spy.Hash password; Spy.RandomUUID;
            Spy.Save (User.mk id email name (Some hashed) true);
            Spy.GenerateToken (Spec.identityOf savedUser)])%list)).
Proof.
  intros Hfind Hhash Hid Hsave Hmint.
  rewrite (register_recorded _ _ _ _ _ _ _ _ _ _ _ _ _ _ _ _ Hfind Hhash Hid Hsave).
  cbv zeta. now rewrite Hmint.
Qed.

(** Ada registers with a token service that cannot sign: status 500, and
    Ada is in the table. *)
Lemma register_keeps_user_when_mint_fails_witness :
  exists world journal,
    RegisterUserHandler.execute
      (Spy.userRepository Ref.Stub.userRepository) (Spy.hasher Ref.Stub.hasher)
      (Spy.tokenService (JwtTokenAdapter.port Ref.Stub.signless Ref.Stub.envs))
      (Spy.randomUUID Ref.randomUUID)
      (RegisterUserCommand.mk (RegisterUserDto.mk "Ada" "ada@x.io" "Str0ng!Pass"))
      (Ref.Stub.empty, [])
    = (inl (RpcException (RpcObj 500 "secretOrPrivateKey must have a value")),
       (world, journal))
    /\ Ref.db world
       = [PrismaUser.mk "uuid-1" "ada@x.io" "Ada" "0:Str0ng!Pass" true]
    /\ (forall id, Spy.Delete id ∉ journal).
Proof.
  eexists. eexists. split; [|split].
  - eapply (register_keeps_user_when_mint_fails Ref.Stub.userRepository
             Ref.Stub.hasher
             (JwtTokenAdapter.port Ref.Stub.signless Ref.Stub.envs)
             Ref.randomUUID
             "Ada" "ada@x.io" "Str0ng!Pass" "0:Str0ng!Pass" "uuid-1"
             (User.mk "uuid-1" "ada@x.io" "Ada" (Some "0:Str0ng!Pass") true)
             (Thrown (Error "secretOrPrivateKey must have a value"))
             Ref.Stub.empty Ref.Stub.empty _ _ _ _ []);
      reflexivity.
  - reflexivity.
  - intros id. cbn [app]. rewrite !elem_of_cons, elem_of_nil.
    intuition discriminate.
Defined.

(** ** Failures of the libraries, seen through the adapters *)

Section Wired.
Context {W : Type}.
Variable prisma : PrismaClient.t W.
Variable bcrypt : Bcrypt.t W.
Variable jwtService : JwtService.t W.
Variable randomUUID : M W JsError string.
Variable envs : Envs.t.

Let register (name email password : string) : M W Exn AuthResponseDto.t :=
  RegisterUserHandler.execute (App.userRepository prisma) (App.hasher bcrypt)
    (App.tokenService jwtService envs) randomUUID
    (RegisterUserCommand.mk (RegisterUserDto.mk name email password)).

Let login (email password : string) : M W Exn AuthResponseDto.t :=
  LoginUserHandler.execute (App.userRepository prisma) (App.hasher bcrypt)
    (App.tokenService jwtService envs)
    (LoginUserCommand.mk (LoginUserDto.mk email password)).

Lemma wired_findByEmail (email : string) (w : W) :
  UserRepositoryPort.findByEmail (App.userRepository prisma) email w =
  match PrismaClient.user_findUnique prisma (PrismaClient.WhereEmail email) w with
  | (inl _, w1) =>
      (inl (RpcException (RpcObj 500 "Database error finding user by email.")), w1)
  | (inr row, w1) => (inr (PrismaUserRepository.mapToDomain row), w1)
  end.
Proof.
  unfold App.userRepository, PrismaUserRepository.port.
  cbn [UserRepositoryPort.findByEmail].
  unfold PrismaUserRepository.findByEmail, try_catch, bind, throw, ret.
  now destruct (PrismaClient.user_findUnique prisma _ w) as [[error|row] w1].
Qed.

(** X3. When hashing fails, registration fails with status 500 and the
    message of bcrypt's error, or the handler's own message when the error
    has none, and stops there: the world is the one the hash left, so no
    row is created.  The hash is asked for with cost 10. *)
Theorem register_hash_failure_is_internal (name email password : string)
    (error : JsError) (w w1 w2 : W) :
  PrismaClient.user_findUnique prisma (PrismaClient.WhereEmail email) w
    = (inr None, w1) ->
  Bcrypt.hash bcrypt password 10 w1 = (inl error, w2) ->
  register name email password w
  = (inl (RpcException (RpcObj 500
       (nullish (err_message error) Spec.registrationFallback))), w2).
Proof.
  intros Hfind Hhash. unfold register. rewrite register_run. cbv zeta.
  rewrite wired_findByEmail, Hfind. cbn [PrismaUserRepository.mapToDomain].
  unfold App.hasher, BcryptAdapter.port. cbn [HasherPort.hash].
  unfold BcryptAdapter.hash, lib, BcryptAdapter.saltRounds.
  now rewrite Hhash.
Qed.

(** X4. A save that fails after the lookup found nobody: when Prisma
    reports the unique-constraint code P2002 (a concurrent registration,
    or a colliding identifier) registration fails with status 409 and a
    message naming the email; for any other database error it fails with
    status 500 and a fixed message.  The row it tried to create holds the
    hash and [isActive = true]. *)
Theorem register_race_is_conflict (name email password hashed id : string)
    (error : JsError) (w w1 w2 w3 w4 : W) :
  PrismaClient.user_findUnique prisma (PrismaClient.WhereEmail email) w
    = (inr None, w1) ->
  Bcrypt.hash bcrypt password 10 w1 = (inr hashed, w2) ->
  randomUUID w2 = (inr id, w3) ->
  PrismaClient.user_create prisma (PrismaUser.mk id email name hashed true) w3
    = (inl error, w4) ->
  register name email password w
  = (inl (if decide (err_code error = Some "P2002")
          then RpcException (RpcObj 409
                 ("User with email " +:+ email +:+ " already exists."))
          else RpcException (RpcObj 500 "Database error saving user.")), w4).
Proof.
  intros Hfind Hhash Hid Hcreate. unfold register. rewrite register_run. cbv zeta.
  rewrite wired_findByEmail, Hfind. cbn [PrismaUserRepository.mapToDomain].
  unfold App.hasher, BcryptAdapter.port. cbn [HasherPort.hash].
  unfold BcryptAdapter.hash, lib, BcryptAdapter.saltRounds.
  rewrite Hhash, Hid.
  unfold App.userRepository, PrismaUserRepository.port.
  cbn [UserRepositoryPort.save].
  unfold PrismaUserRepository.save, try_catch, bind, throw.
  change (PrismaUserRepository.mapToPrismaCreateData
            (User.new id email name (Some hashed) None))
    with (PrismaUser.mk id email name hashed true).
  rewrite Hcreate. cbn [User.email User.new].
  now destruct (decide (err_code error = Some "P2002")).
Qed.

(** X6. Failures during login.  A lookup the database rejects is status
    500 with a fixed message, and nothing is compared.  A comparison or a
    signature that throws is status 500 with the message of the error, or
    the handler's own message when the error has none. *)
Theorem login_failures_are_internal (email password : string) (w : W) :
  (forall error w1,
      PrismaClient.user_findUnique prisma (PrismaClient.WhereEmail email) w
        = (inl error, w1) ->
      login email password w
      = (inl (RpcException (RpcObj 500 "Database error finding user by email.")), w1))
  /\ (forall row error w1 w2,
        PrismaClient.user_findUnique prisma (PrismaClient.WhereEmail email) w
          = (inr (Some row), w1) ->
        PrismaUser.password row <> "" ->
        Bcrypt.compare bcrypt password (PrismaUser.password row) w1
          = (inl error, w2) ->
        login email password w
        = (inl (RpcException (RpcObj 500
             (nullish (err_message error) Spec.loginFallback))), w2))
  /\ (forall row error w1 w2 w3,
        PrismaClient.user_findUnique prisma (PrismaClient.WhereEmail email) w
          = (inr (Some row), w1) ->
        PrismaUser.password row <> "" ->
        Bcrypt.compare bcrypt password (PrismaUser.password row) w1
          = (inr true, w2) ->
        JwtService.sign jwtService
          (Spec.identityOf (PrismaUserRepository.entityOf row)) w2
          = (inl error, w3) ->
        login email password w
        = (inl (RpcException (RpcObj 500
             (nullish (err_message error) Spec.loginFallback))), w3)).
Proof.
  split; [|split].
  - intros error w1 Hfind. unfold login. rewrite login_run. cbv zeta.
    now rewrite wired_findByEmail, Hfind.
  - intros row error w1 w2 Hfind Hpassword Hcompare.
    unfold login. rewrite login_run. cbv zeta.
    rewrite wired_findByEmail, Hfind.
    cbn [PrismaUserRepository.mapToDomain PrismaUserRepository.entityOf
         User.new User.password].
    rewrite (falsy_false _ Hpassword).
    unfold App.hasher, BcryptAdapter.port. cbn [HasherPort.compare].
    unfold BcryptAdapter.compare, lib. now rewrite Hcompare.
  - intros row error w1 w2 w3 Hfind Hpassword Hcompare Hsign.
    unfold login. rewrite login_run. cbv zeta.
    rewrite wired_findByEmail, Hfind.
    cbn [PrismaUserRepository.mapToDomain].
    change (User.password (PrismaUserRepository.entityOf row))
      with (Some (PrismaUser.password row)).
    cbv iota. rewrite (falsy_false _ Hpassword).
    unfold App.hasher, BcryptAdapter.port. cbn [HasherPort.compare].
    unfold BcryptAdapter.compare, lib at 1. rewrite Hcompare.
    unfold App.tokenService, JwtTokenAdapter.port. cbn [TokenPort.generateToken].
    unfold JwtTokenAdapter.generateToken, lib. now rewrite Hsign.
Qed.

End Wired.

(** Ada registers while the hasher is broken: the error has no message,
    the handler's own is used, and the table stays empty. *)
Lemma register_hash_failure_is_internal_witness :
  RegisterUserHandler.execute (App.userRepository Ref.prisma)
    (App.hasher Ref.Stub.brokenBcrypt)
    (App.tokenService Ref.Stub.jwtService Ref.Stub.envs) Ref.randomUUID
    (RegisterUserCommand.mk (RegisterUserDto.mk "Ada" "ada@x.io" "Str0ng!Pass"))
    Ref.Stub.empty
  = (inl (RpcException (RpcObj 500
       "An unexpected error occurred during registration.")), Ref.Stub.empty).
Proof.
  apply (register_hash_failure_is_internal Ref.prisma Ref.Stub.brokenBcrypt
           Ref.Stub.jwtService Ref.randomUUID Ref.Stub.envs
           "Ada" "ada@x.io" "Str0ng!Pass"
           {| err_code := None; err_message := None |}
           Ref.Stub.empty Ref.Stub.empty Ref.Stub.empty); reflexivity.
Defined.

(** Ada registers where the identifier drawn for her is already Bob's,
    and where the database refuses writes. *)
Lemma register_race_is_conflict_witness :
  (exists world,
      RegisterUserHandler.execute (App.userRepository Ref.prisma)
        (App.hasher Ref.Stub.bcrypt)
        (App.tokenService Ref.Stub.jwtService Ref.Stub.envs) Ref.randomUUID
        (RegisterUserCommand.mk (RegisterUserDto.mk "Ada" "ada@x.io" "Str0ng!Pass"))
        Ref.Stub.crowded
      = (inl (RpcException (RpcObj 409 "User with email ada@x.io already exists.")),
         world)
      /\ Ref.db world = [Ref.Stub.bob])
  /\ (exists world,
        RegisterUserHandler.execute (App.userRepository Ref.Stub.readonly)
          (App.hasher Ref.Stub.bcrypt)
          (App.tokenService Ref.Stub.jwtService Ref.Stub.envs) Ref.randomUUID
          (RegisterUserCommand.mk (RegisterUserDto.mk "Ada" "ada@x.io" "Str0ng!Pass"))
          Ref.Stub.empty
        = (inl (RpcException (RpcObj 500 "Database error saving user.")), world)).
Proof.
  split.
  - eexists. split.
    + eapply (register_race_is_conflict Ref.prisma Ref.Stub.bcrypt
                Ref.Stub.jwtService Ref.randomUUID Ref.Stub.envs
                "Ada" "ada@x.io" "Str0ng!Pass" "0:Str0ng!Pass" "uuid-1"
                {| err_code := Some "P2002";
                   err_message := Some "Unique constraint failed" |}
                Ref.Stub.crowded Ref.Stub.crowded); reflexivity.
    + reflexivity.
  - eexists.
    eapply (register_race_is_conflict Ref.Stub.readonly Ref.Stub.bcrypt
              Ref.Stub.jwtService Ref.randomUUID Ref.Stub.envs
              "Ada" "ada@x.io" "Str0ng!Pass" "0:Str0ng!Pass" "uuid-1"
              {| err_code := Some "P1001";
                 err_message := Some "Can't reach database server" |}
              Ref.Stub.empty Ref.Stub.empty); reflexivity.
Defined.

(** Ada logs in while the database is down, while the hasher is broken,
    and while the token service cannot sign. *)
Lemma login_failures_are_internal_witness :
  let ada := LoginUserCommand.mk (LoginUserDto.mk "ada@x.io" "Str0ng!Pass") in
  LoginUserHandler.execute (App.userRepository Ref.Stub.offline)
    (App.hasher Ref.Stub.bcrypt)
    (App.tokenService Ref.Stub.jwtService Ref.Stub.envs) ada Ref.Stub.w0
  = (inl (RpcException (RpcObj 500 "Database error finding user by email.")),
     Ref.Stub.w0)
  /\ LoginUserHandler.execute (App.userRepository Ref.prisma)
       (App.hasher Ref.Stub.brokenBcrypt)
       (App.tokenService Ref.Stub.jwtService Ref.Stub.envs) ada Ref.Stub.w0
     = (inl (RpcException (RpcObj 500 "An unexpected error occurred during login.")),
        Ref.Stub.w0)
  /\ LoginUserHandler.execute (App.userRepository Ref.prisma)
       (App.hasher Ref.Stub.bcrypt)
       (App.tokenService Ref.Stub.signless Ref.Stub.envs) ada Ref.Stub.w0
     = (inl (RpcException (RpcObj 500 "secretOrPrivateKey must have a value")),
        Ref.Stub.w0).
Proof.
  intros ada. split; [|split].
  - apply (proj1 (login_failures_are_internal Ref.Stub.offline Ref.Stub.bcrypt
             Ref.Stub.jwtService Ref.Stub.envs "ada@x.io" "Str0ng!Pass" Ref.Stub.w0)
             {| err_code := Some "P1001";
                err_message := Some "Can't reach database server" |} Ref.Stub.w0).
    reflexivity.
  - apply (proj1 (proj2 (login_failures_are_internal Ref.prisma
             Ref.Stub.brokenBcrypt Ref.Stub.jwtService Ref.Stub.envs
             "ada@x.io" "Str0ng!Pass" Ref.Stub.w0))
             Ref.Stub.ada {| err_code := None; err_message := None |}
             Ref.Stub.w0 Ref.Stub.w0);
      [reflexivity|discriminate|reflexivity].
  - apply (proj2 (proj2 (login_failures_are_internal Ref.prisma
             Ref.Stub.bcrypt Ref.Stub.signless Ref.Stub.envs
             "ada@x.io" "Str0ng!Pass" Ref.Stub.w0))
             Ref.Stub.ada (Error "secretOrPrivateKey must have a value")
             Ref.Stub.w0 Ref.Stub.w0 Ref.Stub.w0);
      [reflexivity|discriminate|reflexivity|reflexivity].
Defined.

(** ** Tokens without identity, and what a refresh signs *)

(** X12. The user of a verify response has exactly the keys [id], [email]
    and [name], never [iat] or [exp], and the refreshed token is what the
    library signs for that very object: the claims of the presented token
    other than the identity are never signed again. *)
Theorem verify_response_shape {W} (jwtService : JwtService.t W) (envs : Envs.t)
    (token : string) (w w' : W) (response : VerifyTokenResponseDto.t) :
  VerifyTokenHandler.execute (JwtTokenAdapter.port jwtService envs)
    (VerifyTokenQuery.mk token) w = (inr response, w') ->
  dom (VerifyTokenResponseDto.user response) = Spec.identityKeys
  /\ VerifyTokenResponseDto.user response !! "iat" = None
  /\ VerifyTokenResponseDto.user response !! "exp" = None
  /\ exists decoded w1,
       JwtService.verify jwtService token (Envs.jwtSecret envs) w = (inr decoded, w1)
       /\ VerifyTokenResponseDto.user response
          = Spec.identity (prop decoded "id") (prop decoded "email")
              (prop decoded "name")
       /\ JwtService.sign jwtService (VerifyTokenResponseDto.user response) w1
          = (inr (VerifyTokenResponseDto.token response), w').
Proof.
  rewrite verify_run. cbv zeta.
  unfold JwtTokenAdapter.port. cbn [TokenPort.verifyToken TokenPort.generateToken].
  rewrite adapter_verifyToken_run.
  destruct (JwtService.verify jwtService token (Envs.jwtSecret envs) w)
    as [[error|decoded] w1]; [discriminate|].
  unfold JwtTokenAdapter.generateToken, lib.
  destruct (JwtService.sign jwtService _ w1) as [[error|newToken] w2] eqn:Hsign;
    [discriminate|].
  intros [= <- <-]. cbn [VerifyTokenResponseDto.user VerifyTokenResponseDto.token].
  split.
  { unfold Spec.identity, object, Spec.identityKeys. simpl.
    rewrite !dom_insert_L, dom_empty_L. set_solver. }
  split; [reflexivity|]. split; [reflexivity|].
  exists decoded, w1. repeat split. exact Hsign.
Qed.

(** The token with a role and a subject, refreshed: the new token decodes
    to the identity and the two timestamps, nothing else. *)
Lemma verify_response_shape_witness :
  exists newToken,
    VerifyTokenHandler.execute Ref.Stub.tokenService
      (VerifyTokenQuery.mk Ref.Stub.scopedToken) Ref.Stub.w0
    = (inr (VerifyTokenResponseDto.mk Ref.Stub.adaIdentity newToken), Ref.Stub.w0)
    /\ dom Ref.Stub.adaIdentity = Spec.identityKeys
    /\ Ref.Stub.decode "s3cret" newToken
       = Some (Ref.stamped 7200 Ref.Stub.adaIdentity 1000).
Proof.
  assert (Hrun : VerifyTokenHandler.execute Ref.Stub.tokenService
                   (VerifyTokenQuery.mk Ref.Stub.scopedToken) Ref.Stub.w0
                 = (inr (VerifyTokenResponseDto.mk Ref.Stub.adaIdentity
                           Ref.Stub.adaToken), Ref.Stub.w0)).
  { vm_compute. reflexivity. }
  destruct (verify_response_shape Ref.Stub.jwtService Ref.Stub.envs
              Ref.Stub.scopedToken Ref.Stub.w0 Ref.Stub.w0 _ Hrun)
    as (Hdom & _).
  exists Ref.Stub.adaToken. split; [exact Hrun|]. split; [exact Hdom|].
  vm_compute. reflexivity.
Defined.

(** X11. The token adapter checks no claim: a token the library accepts
    is accepted even when its claims hold no [id], no [email] and no
    [name].  The verify workflow then answers with a user whose three
    fields are [undefined], an object that serialises to the empty object,
    and refreshes the token for it. *)
Theorem verify_accepts_token_without_identity {W} (jwtService : JwtService.t W)
    (envs : Envs.t) (token newToken : string) (decoded : JsObject)
    (w w1 w2 : W) :
  let nobody := Spec.identity JsUndefined JsUndefined JsUndefined in
  JwtService.verify jwtService token (Envs.jwtSecret envs) w = (inr decoded, w1) ->
  decoded !! "id" = None -> decoded !! "email" = None -> decoded !! "name" = None ->
  JwtService.sign jwtService nobody w1 = (inr newToken, w2) ->
  JwtTokenAdapter.verifyToken jwtService envs token w = (inr nobody, w1)
  /\ VerifyTokenHandler.execute (JwtTokenAdapter.port jwtService envs)
       (VerifyTokenQuery.mk token) w
     = (inr (VerifyTokenResponseDto.mk nobody newToken), w2)
  /\ jsonView nobody = ∅.
Proof.
  intros nobody Hverify Hid Hemail Hname Hsign.
  assert (Hadapter : JwtTokenAdapter.verifyToken jwtService envs token w
                     = (inr nobody, w1)).
  { rewrite adapter_verifyToken_run, Hverify. unfold prop.
    now rewrite !(lookup_total_alt decoded), Hid, Hemail, Hname. }
  split; [exact Hadapter|]. split; [|vm_compute; reflexivity].
  rewrite verify_run. cbv zeta.
  unfold JwtTokenAdapter.port. cbn [TokenPort.verifyToken TokenPort.generateToken].
  rewrite Hadapter. unfold JwtTokenAdapter.generateToken, lib.
  now rewrite Hsign.
Qed.

(** A signed token that holds a role and no identity is verified and
    refreshed. *)
Lemma verify_accepts_token_without_identity_witness :
  exists newToken,
    VerifyTokenHandler.execute Ref.Stub.tokenService
      (VerifyTokenQuery.mk Ref.Stub.anonymousToken) Ref.Stub.w0
    = (inr (VerifyTokenResponseDto.mk
              (Spec.identity JsUndefined JsUndefined JsUndefined) newToken),
       Ref.Stub.w0).
Proof.
  pose (nobody := Spec.identity JsUndefined JsUndefined JsUndefined).
  pose (claims := Ref.stamped 7200 Ref.Stub.roleOnly 1000).
  pose (newToken := Ref.Stub.encode "s3cret" (Ref.stamped 7200 nobody 1000)).
  assert (Hverify : JwtService.verify Ref.Stub.jwtService Ref.Stub.anonymousToken
                      (Envs.jwtSecret Ref.Stub.envs) Ref.Stub.w0
                    = (inr claims, Ref.Stub.w0)).
  { vm_compute. reflexivity. }
  assert (Hsign : JwtService.sign Ref.Stub.jwtService nobody Ref.Stub.w0
                  = (inr newToken, Ref.Stub.w0)).
  { reflexivity. }
  exists newToken.
  exact (proj1 (proj2 (verify_accepts_token_without_identity
           Ref.Stub.jwtService Ref.Stub.envs Ref.Stub.anonymousToken newToken
           claims Ref.Stub.w0 Ref.Stub.w0 Ref.Stub.w0
           Hverify eq_refl eq_refl eq_refl Hsign))).
Defined.

(** ** Registration, then login *)

(** X13. Login after registration.  When the store gives back the user a
    registration saved, with the hash it was saved with, and the hasher
    accepts the password against that hash, login returns the very user
    object the registration returned, with the token minted at login. *)
Theorem login_after_register {W} (userRepository : UserRepositoryPort.t W)
    (hasher : HasherPort.t W) (tokenService : TokenPort.t W)
    (randomUUID : M W JsError string)
    (name email password hashed id token token' : string) (savedUser : User.t)
    (w w1 w2 w3 w4 w5 v v1 v2 v3 : W) :
  UserRepositoryPort.findByEmail userRepository email w = (inr None, w1) ->
  HasherPort.hash hasher password w1 = (inr hashed, w2) ->
  randomUUID w2 = (inr id, w3) ->
  UserRepositoryPort.save userRepository
    (User.mk id email name (Some hashed) true) w3 = (inr savedUser, w4) ->
  TokenPort.generateToken tokenService (Spec.identityOf savedUser) w4
    = (inr token, w5) ->
  UserRepositoryPort.findByEmail userRepository email v = (inr (Some savedUser), v1) ->
  User.password savedUser = Some hashed -> hashed <> "" ->
  HasherPort.compare hasher password hashed v1 = (inr true, v2) ->
  TokenPort.generateToken tokenService (Spec.identityOf savedUser) v2
    = (inr token', v3) ->
  RegisterUserHandler.execute userRepository hasher tokenService randomUUID
    (RegisterUserCommand.mk (RegisterUserDto.mk name email password)) w
    = (inr (AuthResponseDto.mk (Spec.responseUser savedUser) token), w5)
  /\ LoginUserHandler.execute userRepository hasher tokenService
       (LoginUserCommand.mk (LoginUserDto.mk email password)) v
     = (inr (AuthResponseDto.mk (Spec.responseUser savedUser) token'), v3).
Proof.
  intros Hfind Hhash Hid Hsave Hmint Hfound Hstored Hne Hcompare Hmint'.
  split.
  - rewrite register_run. cbv zeta. rewrite Hfind, Hhash, Hid.
    change (User.new id email name (Some hashed) None)
      with (User.mk id email name (Some hashed) true).
    now rewrite Hsave, Hmint.
  - rewrite login_run. cbv zeta.
    now rewrite Hfound, Hstored, (falsy_false _ Hne), Hcompare, Hmint'.
Qed.

(** Ada registers in the empty reference world and, two seconds later,
    logs in. *)
Lemma login_after_register_witness :
  let ada := User.mk "uuid-1" "ada@x.io" "Ada" (Some "0:Str0ng!Pass") true in
  exists token token' registered,
    RegisterUserHandler.execute Ref.Stub.userRepository Ref.Stub.hasher
      Ref.Stub.tokenService Ref.randomUUID
      (RegisterUserCommand.mk (RegisterUserDto.mk "Ada" "ada@x.io" "Str0ng!Pass"))
      Ref.Stub.empty
    = (inr (AuthResponseDto.mk (Spec.responseUser ada) token), registered)
    /\ LoginUserHandler.execute Ref.Stub.userRepository Ref.Stub.hasher
         Ref.Stub.tokenService
         (LoginUserCommand.mk (LoginUserDto.mk "ada@x.io" "Str0ng!Pass"))
         (Ref.elapse 2000 registered)
       = (inr (AuthResponseDto.mk (Spec.responseUser ada) token'),
          Ref.elapse 2000 registered)
    /\ token' <> token.
Proof.
  intros ada.
  pose (registered := Ref.mkWorld
          [PrismaUser.mk "uuid-1" "ada@x.io" "Ada" "0:Str0ng!Pass" true]
          1000500 2).
  pose (token := Ref.Stub.encode "s3cret"
                   (Ref.stamped 7200 (Spec.identityOf ada) 1000)).
  pose (token' := Ref.Stub.encode "s3cret"
                    (Ref.stamped 7200 (Spec.identityOf ada) 1002)).
  exists token, token', registered.
  destruct (login_after_register Ref.Stub.userRepository Ref.Stub.hasher
              Ref.Stub.tokenService Ref.randomUUID
              "Ada" "ada@x.io" "Str0ng!Pass" "0:Str0ng!Pass" "uuid-1"
              token token' ada
              Ref.Stub.empty Ref.Stub.empty (Ref.draw Ref.Stub.empty)
              (Ref.draw (Ref.draw Ref.Stub.empty))
              registered registered
              (Ref.elapse 2000 registered) (Ref.elapse 2000 registered)
              (Ref.elapse 2000 registered) (Ref.elapse 2000 registered))
    as (Hregister & Hlogin).
  - reflexivity.
  - reflexivity.
  - reflexivity.
  - reflexivity.
  - reflexivity.
  - reflexivity.
  - reflexivity.
  - discriminate.
  - reflexivity.
  - reflexivity.
  - split; [exact Hregister|]. split; [exact Hlogin|].
    vm_compute. discriminate.
Defined.
